(** * ProgramsManager: program repository and execution manager

    A shallow embedding of
    [niryo_robot_programs_manager_v2/ProgramsManager.py].

    The manager owns three stores (a metadata table, a script file store
    and a visual ("blockly") file store), an in-memory cache of merged
    records, and a script runner.  The Python methods mutate [self]; they
    are written here in a state-and-exception monad over the record
    [manager], in which a raised exception keeps the writes made before
    it, exactly as an uncaught Python exception does.  The execution
    methods start a thread and poll; they are written as a transition
    system whose runs are the interleavings of the threads' steps. *)

From stdpp Require Import gmap strings list fin_maps.
From Stdlib Require Import ZArith.

Open Scope string_scope.

(** ** Exceptions and results *)

Inductive error : Type :=
  | NotFound          (* a store was asked for an id it does not hold *)
  | KeyError          (* a Python dict was indexed with a missing key *)
  | StorageFailure    (* a store refused or could not perform a write *)
  | AlreadyRunning    (* the runner was started while a session runs *)
  | LaunchFailure.    (* the execution context could not start the body *)

Inductive result (A : Type) : Type :=
  | Ok (a : A)
  | Raise (e : error).
Arguments Ok {A} a.
Arguments Raise {A} e.

Definition is_ok {A} (r : result A) : bool :=
  match r with Ok _ => true | Raise _ => false end.

(** ** What the spec leaves open about the two stores

    The classes behind the stores are not among the sources at hand.
    Their interface is fixed by the specification, but not what a call
    does when it is misused (inserting a known id, editing an unknown
    one, ...).  Each such case is either rejected with an exception or
    performed in the lenient way of the underlying SQL statement or file
    operation; the record below selects between the two, and the results
    about the manager are proved for every choice unless they say
    otherwise. *)

Record policy : Type := Policy {
  insert_rejects_known : bool;   (* else: the row is replaced *)
  update_rejects_unknown : bool; (* else: no row matches, nothing happens *)
  delete_rejects_unknown : bool; (* else: no row matches, nothing happens *)
  create_rejects_known : bool;   (* else: the file is overwritten *)
  edit_rejects_unknown : bool;   (* else: the file is written anyway *)
  remove_rejects_unknown : bool  (* else: nothing happens *)
}.

(** ** The metadata store ([niryo_robot_database.Program]) *)

(** A row of the table, keyed by the program id. *)
Record row : Type := Row {
  row_name : string;
  row_description : string;
  row_saved_at : string;
  row_has_blockly : bool
}.

(** The dict a query returns for one row. *)
Record DbProgram : Type := mkDbProgram {
  db_id : string;
  db_name : string;
  db_description : string;
  db_saved_at : string;
  db_has_blockly : bool
}.

Definition to_dict (kr : string * row) : DbProgram :=
  mkDbProgram kr.1 (row_name kr.2) (row_description kr.2)
              (row_saved_at kr.2) (row_has_blockly kr.2).

Definition row_of (d : DbProgram) : row :=
  Row (db_name d) (db_description d) (db_saved_at d) (db_has_blockly d).

Module Program.

(** Modelled from the spec: the metadata store, of which only the calls
    made by the manager are in the sources.  Section 6 gives its
    interface: insert(id, name, description, has_visual),
    update(id, name?, description?, has_visual?), delete(id),
    get_by_id(id) -> record | NotFound, get_all() -> [record],
    exists(id) -> bool; section 3 makes the id unique and [saved_at] the
    timestamp of the last metadata write, so every write stamps the row
    with the time [now] at which it is made; section 1 assumes the store
    durable and transactional per call, so it has no failure of its own. *)
Section Store.
Variable P : policy.
Variable now : string.

Definition get_all (t : gmap string row) : list DbProgram :=
  to_dict <$> map_to_list t.

Definition get_by_id (id_ : string) (t : gmap string row) : result DbProgram :=
  match t !! id_ with
  | Some r => Ok (to_dict (id_, r))
  | None => Raise NotFound
  end.

Definition exists_ (id_ : string) (t : gmap string row) : bool :=
  bool_decide (is_Some (t !! id_)).

Definition insert_program (id_ name description : string) (has_blockly : bool)
    (t : gmap string row) : result (gmap string row) :=
  if insert_rejects_known P && exists_ id_ t then Raise StorageFailure
  else Ok (<[id_ := Row name description now has_blockly]> t).

Definition update_row (name description : option string)
    (has_blockly : option bool) (r : row) : row :=
  Row (default (row_name r) name)
      (default (row_description r) description)
      now
      (default (row_has_blockly r) has_blockly).

Definition update_program (id_ : string) (name description : option string)
    (has_blockly : option bool) (t : gmap string row) : result (gmap string row) :=
  if update_rejects_unknown P && negb (exists_ id_ t) then Raise NotFound
  else Ok (alter (update_row name description has_blockly) id_ t).

Definition delete_program (id_ : string) (t : gmap string row)
    : result (gmap string row) :=
  if delete_rejects_unknown P && negb (exists_ id_ t) then Raise NotFound
  else Ok (delete id_ t).

End Store.

End Program.

(** ** The file stores ([ProgramsFileManager]) *)

(** One directory of program bodies: [files] maps a program id to the
    text of its file; [temps] holds the scoped temporary bodies, by path,
    outside the id space; [writable] is false when the directory cannot
    be written (full or read-only disk), in which case every write raises. *)
Record fstore : Type := FStore {
  root : string;
  suffix : string;
  files : gmap string string;
  temps : gmap string string;
  writable : bool
}.

Definition with_files (f : gmap string string) (d : fstore) : fstore :=
  FStore (root d) (suffix d) f (temps d) (writable d).

Definition with_temps (f : gmap string string) (d : fstore) : fstore :=
  FStore (root d) (suffix d) (files d) f (writable d).

Module ProgramsFileManager.

(** Modelled from the spec: the file store, of which only the calls made
    by the manager are in the sources.  Section 4.2: a store is
    parametrized by a root directory and a file extension and offers
    create(id, body), edit(id, body), remove(id), read(id) -> body,
    exists(id) -> bool, list_ids() -> [id], each operating on exactly
    one file named by the id, and a scoped temporary body created
    outside the managed id space and deleted when its scope closes.
    Section 7: an I/O error of a store surfaces as StorageFailure. *)
Section Store.
Variable P : policy.

Definition get_all_names (d : fstore) : list string :=
  (map_to_list (files d)).*1.

Definition exists_ (name : string) (d : fstore) : bool :=
  bool_decide (is_Some (files d !! name)).

Definition get_file_path (name : string) (d : fstore) : string :=
  root d +:+ "/" +:+ name +:+ suffix d.

Definition read (name : string) (d : fstore) : result string :=
  match files d !! name with
  | Some body => Ok body
  | None => Raise NotFound
  end.

Definition create (name code : string) (d : fstore) : result fstore :=
  if negb (writable d) then Raise StorageFailure
  else if create_rejects_known P && exists_ name d then Raise StorageFailure
  else Ok (with_files (<[name := code]> (files d)) d).

Definition edit (name code : string) (d : fstore) : result fstore :=
  if negb (writable d) then Raise StorageFailure
  else if edit_rejects_unknown P && negb (exists_ name d) then Raise NotFound
  else Ok (with_files (<[name := code]> (files d)) d).

Definition remove (name : string) (d : fstore) : result fstore :=
  if remove_rejects_unknown P && negb (exists_ name d) then Raise NotFound
  else Ok (with_files (delete name (files d)) d).

(** Entering the scope of [temporary_file(code)] writes the body at a
    path [tmp] chosen by the system; leaving it, on any path, removes
    that file. *)
Definition temporary_enter (tmp code : string) (d : fstore) : result fstore :=
  if negb (writable d) then Raise StorageFailure
  else Ok (with_temps (<[tmp := code]> (temps d)) d).

Definition temporary_exit (tmp : string) (d : fstore) : fstore :=
  with_temps (delete tmp (temps d)) d.

End Store.

End ProgramsFileManager.

(** ** The script runner ([PythonRunner]) *)

(** How an execution ended: by itself with an exit code, by [stop], or
    without ever being launched. *)
Inductive exit : Type :=
  | Exited (code : Z)
  | Cancelled
  | NotLaunched.

#[global] Instance exit_eq_dec : EqDecision exit.
Proof. solve_decision. Defined.

Inductive phase : Type :=
  | Idle
  | Starting
  | Running
  | Terminated (e : exit).

Record runner : Type := Runner {
  run_phase : phase;
  run_output : list string
}.

(** When a call of [start] returns to the thread that made it: once the
    execution context has begun, or once the body it launched has ended.
    The runner is not in the sources and the two readings are both
    supported: section 4.3 of the specification has [start] return once
    the context has observably begun, while the manager makes [start] the
    target of a thread of its own and polls [is_running] from the caller,
    which suits a call that lasts the run.  Results that hold under both
    take this as a parameter; a result that needs one says which. *)
Inductive start_returns : Type :=
  | OnceBegun
  | OnceEnded.

Module PythonRunner.

(** Modelled from the spec: the runner, of which only the calls made by
    the manager are in the sources.  Section 4.3: the states are
    Idle, Starting, Running and the terminal ones (which reset on the
    next start).  [start] is not one step.  It first claims the runner
    ([start_claim]): this fails with AlreadyRunning while a session is
    starting or running, and otherwise moves to Starting with an empty
    output buffer.  It then spawns the execution context
    ([start_launch]): the runner moves to Running, or, when the body
    cannot be launched, the execution is reported as failed with a
    synthetic status; a start that was stopped in the meantime launches
    nothing.  When it returns after that is [start_returns].  [stop] does
    nothing when nothing runs and otherwise records a cancelled status.
    [is_running] holds in the Starting and Running window; [exit_status]
    is None before any run and while one runs, and is set when the
    execution context terminates, by any path. *)
Definition fresh : runner := Runner Idle [].

Definition is_running (r : runner) : bool :=
  match run_phase r with Starting | Running => true | _ => false end.

Definition exit_status (r : runner) : option exit :=
  match run_phase r with Terminated e => Some e | _ => None end.

Definition start_claim (r : runner) : runner * result unit :=
  match run_phase r with
  | Starting | Running => (r, Raise AlreadyRunning)
  | _ => (Runner Starting [], Ok tt)
  end.

Definition start_launch (launches : bool) (r : runner) : runner * result unit :=
  match run_phase r with
  | Starting =>
      if launches then (Runner Running (run_output r), Ok tt)
      else (Runner (Terminated NotLaunched) (run_output r), Raise LaunchFailure)
  | _ => (r, Ok tt)
  end.

Definition stop (r : runner) : runner :=
  match run_phase r with
  | Starting | Running => Runner (Terminated Cancelled) (run_output r)
  | _ => r
  end.

(** What the execution context itself does to the session. *)
Definition emits (line : string) (r : runner) : runner :=
  match run_phase r with
  | Running => Runner Running (run_output r ++ [line])
  | _ => r
  end.

Definition exits (code : Z) (r : runner) : runner :=
  match run_phase r with
  | Running => Runner (Terminated (Exited code)) (run_output r)
  | _ => r
  end.

End PythonRunner.

(** ** The manager *)

(** The merged record [get] returns ([ProgramDict]). *)
Record ProgramDict : Type := mkProgramDict {
  id : string;
  name : string;
  description : string;
  saved_at : string;
  has_blockly : bool;
  python_code : string;
  blockly_code : string
}.

(** The three warnings of the reconciliation pass, one per repair. *)
Inductive warning : Type :=
  | RemovingProgram (id_ : string)      (* record dropped: it has no file *)
  | NoBlocklyFile (id_ : string)        (* has_blockly set to False *)
  | FoundPythonProgram (id_ : string).  (* file adopted into the table *)

Record manager : Type := Manager {
  database : gmap string row;
  python_manager : fstore;
  blockly_manager : fstore;
  programs : gmap string ProgramDict;
  python_runner : runner;
  rosout : list warning
}.

Definition with_database (t : gmap string row) (s : manager) : manager :=
  Manager t (python_manager s) (blockly_manager s) (programs s)
          (python_runner s) (rosout s).

Definition with_python (d : fstore) (s : manager) : manager :=
  Manager (database s) d (blockly_manager s) (programs s)
          (python_runner s) (rosout s).

Definition with_blockly (d : fstore) (s : manager) : manager :=
  Manager (database s) (python_manager s) d (programs s)
          (python_runner s) (rosout s).

Definition with_programs (c : gmap string ProgramDict) (s : manager) : manager :=
  Manager (database s) (python_manager s) (blockly_manager s) c
          (python_runner s) (rosout s).

Definition with_runner (r : runner) (s : manager) : manager :=
  Manager (database s) (python_manager s) (blockly_manager s) (programs s)
          r (rosout s).

Definition with_rosout (l : list warning) (s : manager) : manager :=
  Manager (database s) (python_manager s) (blockly_manager s) (programs s)
          (python_runner s) l.

(** *** Methods as state transformers that may raise *)

Definition M (A : Type) : Type := manager → manager * result A.

Definition ret {A} (a : A) : M A := λ s, (s, Ok a).

Definition raise {A} (e : error) : M A := λ s, (s, Raise e).

Definition bind {A B} (m : M A) (k : A → M B) : M B := λ s,
  match m s with
  | (s', Ok a) => k a s'
  | (s', Raise e) => (s', Raise e)
  end.

Notation "x <- m ;; k" := (bind m (λ x, k))
  (at level 100, m at next level, right associativity).
Notation "m ;; k" := (bind m (λ _, k))
  (at level 100, right associativity).

Fixpoint for_each {A} (l : list A) (body : A → M unit) : M unit :=
  match l with
  | [] => ret tt
  | x :: l' => body x ;; for_each l' body
  end.

Fixpoint map_each {A B} (l : list A) (f : A → M B) : M (list B) :=
  match l with
  | [] => ret []
  | x :: l' => y <- f x ;; ys <- map_each l' f ;; ret (y :: ys)
  end.

(** Reading a store, and running a write of one of the three stores. *)
Definition ask {A} (f : manager → result A) : M A := λ s, (s, f s).

Definition on_database (f : gmap string row → result (gmap string row)) : M unit :=
  λ s, match f (database s) with
       | Ok t => (with_database t s, Ok tt)
       | Raise e => (s, Raise e)
       end.

Definition on_python (f : fstore → result fstore) : M unit :=
  λ s, match f (python_manager s) with
       | Ok d => (with_python d s, Ok tt)
       | Raise e => (s, Raise e)
       end.

Definition on_blockly (f : fstore → result fstore) : M unit :=
  λ s, match f (blockly_manager s) with
       | Ok d => (with_blockly d s, Ok tt)
       | Raise e => (s, Raise e)
       end.

Definition logwarn (w : warning) : M unit :=
  λ s, (with_rosout (rosout s ++ [w]) s, Ok tt).

(** [self.__programs[key] = value] and [self.__programs.pop(key)]. *)
Definition programs_set (key : string) (value : ProgramDict) : M unit :=
  λ s, (with_programs (<[key := value]> (programs s)) s, Ok tt).

Definition programs_pop (key : string) : M ProgramDict :=
  λ s, match programs s !! key with
       | Some p => (with_programs (delete key (programs s)) s, Ok p)
       | None => (s, Raise KeyError)
       end.

Definition merged (d : DbProgram) (python_code blockly_code : string) : ProgramDict :=
  mkProgramDict (db_id d) (db_name d) (db_description d) (db_saved_at d)
                (db_has_blockly d) python_code blockly_code.

Section Manager.
(** [P] fixes the behaviour of the stores where the spec is silent;
    [now] is the clock reading the metadata store stamps its writes
    with during the call. *)
Variable P : policy.
Variable now : string.

Definition get (program_id : string) : M ProgramDict :=
  db_program <- ask (λ s, Program.get_by_id program_id (database s)) ;;
  python_code <- ask (λ s, ProgramsFileManager.read program_id (python_manager s)) ;;
  blockly_code <- (if db_has_blockly db_program
                   then ask (λ s, ProgramsFileManager.read program_id (blockly_manager s))
                   else ret "") ;;
  ret (merged db_program python_code blockly_code).

Definition get_all : M (list ProgramDict) :=
  db_programs <- ask (λ s, Ok (Program.get_all (database s))) ;;
  map_each db_programs (λ db_program, get (db_id db_program)).

Definition exists_ (program_id : string) : M bool :=
  ask (λ s, Ok (Program.exists_ program_id (database s)
                && ProgramsFileManager.exists_ program_id (python_manager s))).

(** [__sync_db_with_system]: the reconciliation pass of the constructor. *)
Definition sync_db_with_system : M unit :=
  db_programs <- ask (λ s, Ok (Program.get_all (database s))) ;;
  python_programs <- ask (λ s, Ok (ProgramsFileManager.get_all_names (python_manager s))) ;;
  blockly_programs <- ask (λ s, Ok (ProgramsFileManager.get_all_names (blockly_manager s))) ;;
  for_each db_programs (λ db_program,
    if negb (bool_decide (db_id db_program ∈ python_programs)) then
      logwarn (RemovingProgram (db_id db_program)) ;;
      on_database (Program.delete_program P (db_id db_program))
    else if db_has_blockly db_program
            && negb (bool_decide (db_id db_program ∈ blockly_programs)) then
      logwarn (NoBlocklyFile (db_id db_program)) ;;
      on_database (Program.update_program P now (db_id db_program) None None (Some false))
    else ret tt) ;;
  let db_programs_ids := db_id <$> db_programs in
  for_each python_programs (λ python_program,
    if negb (bool_decide (python_program ∈ db_programs_ids)) then
      logwarn (FoundPythonProgram python_program) ;;
      on_database (Program.insert_program P now python_program python_program
                     "Unknown program"
                     (bool_decide (python_program ∈ blockly_programs)))
    else ret tt).

(** [program_id] is the value [uuid4()] returns in the call; an omitted
    [blockly_code] is the empty string, the default of the parameter. *)
Definition create_program (program_id : string)
    (name description python_code blockly_code : string) : M string :=
  let has_blockly := bool_decide (blockly_code ≠ "") in
  on_database (Program.insert_program P now program_id name description has_blockly) ;;
  on_python (ProgramsFileManager.create P program_id python_code) ;;
  (if has_blockly
   then on_blockly (ProgramsFileManager.create P program_id blockly_code)
   else ret tt) ;;
  program <- get program_id ;;
  programs_set program_id program ;;
  ret program_id.

Definition delete_program (program_id : string) : M unit :=
  on_database (Program.delete_program P program_id) ;;
  on_python (ProgramsFileManager.remove P program_id) ;;
  program <- programs_pop program_id ;;
  if has_blockly program
  then on_blockly (ProgramsFileManager.remove P program_id)
  else ret tt.

Definition update_program (program_id : string)
    (name description python_code blockly_code : string) : M unit :=
  let has_blockly := bool_decide (blockly_code ≠ "") in
  on_database (Program.update_program P now program_id (Some name) (Some description)
                 (Some has_blockly)) ;;
  on_python (ProgramsFileManager.edit P program_id python_code) ;;
  (if has_blockly
   then on_blockly (ProgramsFileManager.edit P program_id blockly_code)
   else ret tt) ;;
  programs_pop program_id ;;
  program <- get program_id ;;
  programs_set program_id program.

(** The constructor, from the stores found on disk: reconcile, fill the
    cache with the merged view of every record, and create the runner. *)
Definition init : M unit :=
  sync_db_with_system ;;
  all <- get_all ;;
  λ s, (with_runner PythonRunner.fresh
          (with_programs (foldl (λ c p, <[id p := p]> c) ∅ all) s), Ok tt).

End Manager.

(** ** Program executions

    [__execute] hands the work to a new thread and then polls the runner.
    The calling thread, the spawned thread and the running body advance
    independently; a run of the system is the sequence of their atomic
    steps, in the order the scheduler takes them. *)

(** Where the spawned thread stands.  [execute_from_id] spawns it at the
    call of [start]; [execute_from_code] spawns it before the block
    [with temporary_file(code) as tmp: start(tmp)], which it leaves
    through the context manager's exit on every path.  Inside [start] the
    thread first claims the runner, then launches the body, and then,
    where [start] lasts the run, waits for the body to end.  An exception
    that escapes the thread's target ends the thread and reaches
    nobody. *)
Inductive thread : Type :=
  | EnterScope (code tmp : string)
  | CallStart (path : string) (scope : option string)
  | Launching (path : string) (scope : option string)
  | InStart (scope : option string)
  | LeaveScope (tmp : string) (raised : option error)
  | Finished (raised : option error).

(** Where the caller of [__execute] stands: in the polling loop, or out
    of the call with its outcome. *)
Inductive call : Type :=
  | Waiting
  | Done (outcome : result unit).

Record world : Type := World {
  mgr : manager;
  spawned : thread;
  caller : call
}.

Inductive event : Type :=
  | ThreadRuns                (* the spawned thread runs its next statement *)
  | CallerPolls               (* the caller evaluates the loop condition *)
  | BodyPrints (line : string)
  | BodyExits (code : Z)
  | StopRequested.            (* [stop_execution] is called *)

(** Whether a file lies at [path] in the script directory, so that the
    execution context can be launched on it. *)
Definition has_file_at (path : string) (d : fstore) : bool :=
  bool_decide (path ∈ (λ n, ProgramsFileManager.get_file_path n d)
                        <$> ProgramsFileManager.get_all_names d)
  || bool_decide (is_Some (temps d !! path)).

Definition execution_output (s : manager) : list string :=
  run_output (python_runner s).

Definition execution_is_running (s : manager) : bool :=
  PythonRunner.is_running (python_runner s).

Definition execution_is_success (s : manager) : bool :=
  bool_decide (PythonRunner.exit_status (python_runner s) = Some (Exited 0)).

Definition stop_execution (s : manager) : manager :=
  with_runner (PythonRunner.stop (python_runner s)) s.

(** Where the thread goes when its call of [start] is over, normally or
    with an exception: out of the enclosing block, if there is one. *)
Definition after_start (scope : option string) (raised : option error) : thread :=
  match scope with
  | Some tmp => LeaveScope tmp raised
  | None => Finished raised
  end.

Definition thread_step (T : start_returns) (s : manager) (t : thread)
    : manager * thread :=
  match t with
  | EnterScope code tmp =>
      match ProgramsFileManager.temporary_enter tmp code (python_manager s) with
      | Ok d => (with_python d s, CallStart tmp (Some tmp))
      | Raise e => (s, Finished (Some e))
      end
  | CallStart path scope =>
      match PythonRunner.start_claim (python_runner s) with
      | (r, Ok _) => (with_runner r s, Launching path scope)
      | (r, Raise e) => (with_runner r s, after_start scope (Some e))
      end
  | Launching path scope =>
      match PythonRunner.start_launch (has_file_at path (python_manager s))
                                      (python_runner s) with
      | (r, Ok _) =>
          (with_runner r s,
           match T with
           | OnceBegun => after_start scope None
           | OnceEnded => InStart scope
           end)
      | (r, Raise e) => (with_runner r s, after_start scope (Some e))
      end
  | InStart scope =>
      if execution_is_running s then (s, InStart scope)
      else (s, after_start scope None)
  | LeaveScope tmp raised =>
      (with_python (ProgramsFileManager.temporary_exit tmp (python_manager s)) s,
       Finished raised)
  | Finished raised => (s, Finished raised)
  end.

(** One evaluation of
    [while not self.execution_is_running and exit_status is None]:
    the call returns when the condition is false and sleeps otherwise. *)
Definition poll (s : manager) (c : call) : call :=
  match c with
  | Waiting =>
      if negb (execution_is_running s)
         && bool_decide (PythonRunner.exit_status (python_runner s) = None)
      then Waiting
      else Done (Ok tt)
  | Done r => Done r
  end.

Definition step (T : start_returns) (w : world) (e : event) : world :=
  match e with
  | ThreadRuns =>
      let next := thread_step T (mgr w) (spawned w) in
      World next.1 next.2 (caller w)
  | CallerPolls => World (mgr w) (spawned w) (poll (mgr w) (caller w))
  | BodyPrints line =>
      World (with_runner (PythonRunner.emits line (python_runner (mgr w))) (mgr w))
            (spawned w) (caller w)
  | BodyExits code =>
      World (with_runner (PythonRunner.exits code (python_runner (mgr w))) (mgr w))
            (spawned w) (caller w)
  | StopRequested => World (stop_execution (mgr w)) (spawned w) (caller w)
  end.

Definition run (T : start_returns) (schedule : list event) (w : world) : world :=
  foldl (step T) w schedule.

(** [__execute]: the state right after [Thread(target=fun).start()], the
    caller about to poll. *)
Definition execute (fun_ : thread) (s : manager) : world :=
  World s fun_ Waiting.

Definition execute_from_id (program_id : string) (s : manager) : world :=
  let file_path := ProgramsFileManager.get_file_path program_id (python_manager s) in
  execute (CallStart file_path None) s.

(** [tmp] is the path the temporary file gets. *)
Definition execute_from_code (python_code tmp : string) (s : manager) : world :=
  execute (EnterScope python_code tmp) s.

(** * Properties *)

(** The three invariants of the data model, on the state of the stores. *)
Definition I1 (s : manager) : Prop :=
  ∀ k, is_Some (database s !! k) → is_Some (files (python_manager s) !! k).

Definition I2 (s : manager) : Prop :=
  ∀ k r, database s !! k = Some r → row_has_blockly r = true →
         is_Some (files (blockly_manager s) !! k).

Definition I3 (s : manager) : Prop :=
  ∀ k, is_Some (files (python_manager s) !! k) → is_Some (database s !! k).

(** Two states that differ at most in the metadata table and the log. *)
Definition same_files (s s' : manager) : Prop :=
  python_manager s' = python_manager s ∧
  blockly_manager s' = blockly_manager s ∧
  programs s' = programs s ∧
  python_runner s' = python_runner s.

Section Reconcile.
Variable P : policy.
Variable now : string.
Variables python_programs blockly_programs : list string.

(** The bodies of the two loops of the reconciliation pass. *)
Definition record_pass (db_program : DbProgram) : M unit :=
  if negb (bool_decide (db_id db_program ∈ python_programs)) then
    logwarn (RemovingProgram (db_id db_program)) ;;
    on_database (Program.delete_program P (db_id db_program))
  else if db_has_blockly db_program
          && negb (bool_decide (db_id db_program ∈ blockly_programs)) then
    logwarn (NoBlocklyFile (db_id db_program)) ;;
    on_database (Program.update_program P now (db_id db_program) None None (Some false))
  else ret tt.

Definition file_pass (db_programs_ids : list string) (python_program : string) : M unit :=
  if negb (bool_decide (python_program ∈ db_programs_ids)) then
    logwarn (FoundPythonProgram python_program) ;;
    on_database (Program.insert_program P now python_program python_program
                   "Unknown program"
                   (bool_decide (python_program ∈ blockly_programs)))
  else ret tt.

(** What the first loop makes of the row stored under [k]. *)
Definition reconciled (k : string) (r : row) : option row :=
  if bool_decide (k ∈ python_programs) then
    Some (if row_has_blockly r && negb (bool_decide (k ∈ blockly_programs))
          then Program.update_row now None None (Some false) r
          else r)
  else None.

(** What the second loop stores for an adopted file. *)
Definition adopted (k : string) : row :=
  Row k "Unknown program" now (bool_decide (k ∈ blockly_programs)).

End Reconcile.

(** [hoare pre m post]: run from a state that satisfies [pre], the method
    [m] ends, by returning or by raising, in a state that satisfies
    [post] on this outcome. *)
Definition hoare {A} (pre : manager → Prop) (m : M A)
    (post : result A → manager → Prop) : Prop :=
  ∀ s, pre s → post (m s).2 (m s).1.

(** A method that writes neither the table nor the script store. *)
Definition keeps_scripts {A} (m : M A) : Prop :=
  ∀ s, database (m s).1 = database s ∧ python_manager (m s).1 = python_manager s.

Definition scripts_cover (t : gmap string row) (d : fstore) : Prop :=
  ∀ k, is_Some (t !! k) → is_Some (files d !! k).

(** What the session does by itself along a schedule: the steps of its
    body and the stop requests, and nothing of a later call. *)
Definition session_alone (schedule : list event) (r : runner) : runner :=
  foldl (λ r e, match e with
                | BodyPrints line => PythonRunner.emits line r
                | BodyExits code => PythonRunner.exits code r
                | StopRequested => PythonRunner.stop r
                | _ => r
                end) r schedule.

(** The events along which a running session keeps running. *)
Definition keeps_running (e : event) : bool :=
  match e with
  | BodyExits _ | StopRequested => false
  | _ => true
  end.

(** How many steps the spawned thread makes along a schedule. *)
Fixpoint thread_steps (schedule : list event) : nat :=
  match schedule with
  | [] => 0
  | ThreadRuns :: rest => S (thread_steps rest)
  | _ :: rest => thread_steps rest
  end.

(** Where the spawned thread of an [execute_from_code] call stands after
    [n] steps when its call of [start] is turned away: it enters the
    scope, calls [start], which raises AlreadyRunning, leaves the scope
    with this exception, and ends with it. *)
Definition turned_away (n : nat) (code tmp : string) : thread :=
  match n with
  | 0 => EnterScope code tmp
  | 1 => CallStart tmp (Some tmp)
  | 2 => LeaveScope tmp (Some AlreadyRunning)
  | _ => Finished (Some AlreadyRunning)
  end.

Definition not_raised (c : call) : Prop := c = Waiting ∨ c = Done (Ok tt).

(** ** Concrete stores used to exercise the results *)

Definition lenient : policy := Policy false false false false false false.

Definition strict : policy := Policy true true true true true true.

Definition python_dir (f : gmap string string) (w : bool) : fstore :=
  FStore "/programs/python3" ".py" f ∅ w.

Definition blockly_dir (f : gmap string string) : fstore :=
  FStore "/programs/blockly" ".xml" f ∅ true.

(** One record flagged as visual whose visual file is gone, and one script
    file that the table does not know. *)
Definition drifted : manager :=
  Manager {[ "p1" := Row "pick" "pick and place" "2024-01-01" true ]}
          (python_dir {[ "p1" := "print(1)"; "p2" := "print(2)" ]} true)
          (blockly_dir ∅)
          ∅ PythonRunner.fresh [].

(** Stores that agree, as the reconciliation pass leaves them. *)
Definition reconciled_state : manager :=
  Manager {[ "p1" := Row "pick" "pick and place" "2024-06-01" false;
             "p2" := Row "p2" "Unknown program" "2024-06-01" false ]}
          (python_dir {[ "p1" := "print(1)"; "p2" := "print(2)" ]} true)
          (blockly_dir {[ "p1" := "<xml/>" ]})
          ∅ PythonRunner.fresh [].

(** A manager whose script directory cannot be written, and which knows
    no program yet. *)
Definition full_disk : manager :=
  Manager ∅ (python_dir ∅ false) (blockly_dir ∅) ∅ PythonRunner.fresh [].

(** One program with a visual body. *)
Definition with_visual : manager :=
  Manager {[ "p1" := Row "pick" "pick and place" "2024-01-01" true ]}
          (python_dir {[ "p1" := "print(1)" ]} true)
          (blockly_dir {[ "p1" := "<xml/>" ]})
          ∅ PythonRunner.fresh [].

(** A manager whose runner is in the middle of a session, and one whose
    runner has finished a session. *)
Definition busy : manager :=
  Manager {[ "p1" := Row "pick" "pick and place" "2024-06-01" false ]}
          (python_dir {[ "p1" := "print(1)" ]} true)
          (blockly_dir ∅)
          ∅ (Runner Running ["hello"]) [].

Definition finished_once : manager :=
  Manager {[ "p1" := Row "pick" "pick and place" "2024-06-01" false ]}
          (python_dir {[ "p1" := "print(1)" ]} true)
          (blockly_dir ∅)
          ∅ (Runner (Terminated (Exited 0)) ["hello"]) [].

(** ** Further properties of the manager *)

(** The cache agrees with the stores: every cached record is the merged
    view [get] computes for its id. *)
Definition coherent (s : manager) : Prop :=
  ∀ k p, programs s !! k = Some p → (get k s).2 = Ok p.

(** The merged view of the row [r] of [k] with the bodies [body] and
    [visual]. *)
Definition view (k : string) (r : row) (body visual : string) : ProgramDict :=
  mkProgramDict k (row_name r) (row_description r) (row_saved_at r)
                (row_has_blockly r) body visual.

(** What the first loop of the reconciliation pass logs for a record, and
    the second for a script file. *)
Definition record_warning (python_programs blockly_programs : list string)
    (db_program : DbProgram) : list warning :=
  if negb (bool_decide (db_id db_program ∈ python_programs)) then
    [RemovingProgram (db_id db_program)]
  else if db_has_blockly db_program
          && negb (bool_decide (db_id db_program ∈ blockly_programs)) then
    [NoBlocklyFile (db_id db_program)]
  else [].

Definition file_warning (db_programs_ids : list string) (python_program : string)
    : list warning :=
  if negb (bool_decide (python_program ∈ db_programs_ids)) then
    [FoundPythonProgram python_program]
  else [].

(** The part of a state that executions never write. *)
Definition same_programs (s s' : manager) : Prop :=
  database s' = database s ∧
  blockly_manager s' = blockly_manager s ∧
  programs s' = programs s ∧
  rosout s' = rosout s ∧
  with_temps ∅ (python_manager s') = with_temps ∅ (python_manager s).

(** The state the constructor makes of the stores of [s]. *)
Definition init_cache (s : manager) : manager :=
  (init strict "2024-06-01" s).1.

(** The repair a warning of the reconciliation pass stands for. *)
Definition repair_due (s : manager) (w : warning) : Prop :=
  match w with
  | RemovingProgram k =>
      is_Some (database s !! k) ∧ files (python_manager s) !! k = None
  | NoBlocklyFile k =>
      ∃ r, database s !! k = Some r ∧ row_has_blockly r = true ∧
           is_Some (files (python_manager s) !! k) ∧
           files (blockly_manager s) !! k = None
  | FoundPythonProgram k =>
      database s !! k = None ∧ is_Some (files (python_manager s) !! k)
  end.

(** What a call of [start] can leave the thread with: nothing raised, or
    one of the exceptions of [start]. *)
Definition from_start (raised : option error) : bool :=
  match raised with
  | None | Some AlreadyRunning | Some LaunchFailure => true
  | _ => false
  end.

(** Whether the spawned thread has made its call of [start]: it is inside
    the call, or past it with what the call left. *)
Definition called_start (t : thread) : bool :=
  match t with
  | Launching _ _ | InStart _ => true
  | LeaveScope _ raised => from_start raised
  | Finished raised => from_start raised
  | _ => false
  end.


(** The script store and the thread of one [execute_from_code] call whose
    temporary file is [tmp]: the store is the one the call found, with the
    temporary file in it exactly while the thread is inside the scope. *)
Definition scoped (d0 : fstore) (code tmp : string) (w : world) : Prop :=
  match spawned w with
  | EnterScope c t => c = code ∧ t = tmp ∧ python_manager (mgr w) = d0
  | CallStart path scope =>
      scope = Some tmp ∧
      python_manager (mgr w) = with_temps (<[tmp := code]> (temps d0)) d0
  | Launching path scope =>
      scope = Some tmp ∧
      python_manager (mgr w) = with_temps (<[tmp := code]> (temps d0)) d0
  | InStart scope =>
      scope = Some tmp ∧
      python_manager (mgr w) = with_temps (<[tmp := code]> (temps d0)) d0
  | LeaveScope t _ =>
      t = tmp ∧
      python_manager (mgr w) = with_temps (<[tmp := code]> (temps d0)) d0
  | Finished _ => python_manager (mgr w) = d0
  end.

(** What the polling loop maintains on a runner that had never run when
    the call was made: the caller is still in the loop and the runner
    idle, or the spawned thread has called [start] (it is inside the
    call or past it), the runner has left the idle state for good and
    the caller has raised nothing. *)
Definition handshake (w : world) : Prop :=
  (run_phase (python_runner (mgr w)) = Idle ∧ caller w = Waiting) ∨
  (run_phase (python_runner (mgr w)) ≠ Idle ∧ called_start (spawned w) = true ∧
   (caller w = Waiting ∨ caller w = Done (Ok tt))).


(** * Reconciliation *)

Lemma same_files_refl s : same_files s s.
Proof. by repeat split. Qed.

Lemma same_files_trans s1 s2 s3 :
  same_files s1 s2 → same_files s2 s3 → same_files s1 s3.
Proof.
  intros (? & ? & ? & ?) (? & ? & ? & ?). repeat split; congruence.
Qed.

Lemma row_of_to_dict k r : row_of (to_dict (k, r)) = r.
Proof. by destruct r. Qed.

Lemma get_all_ids t : db_id <$> Program.get_all t = (map_to_list t).*1.
Proof.
  unfold Program.get_all. rewrite <- list_fmap_compose.
  by apply list_fmap_ext.
Qed.

Lemma get_all_NoDup t : NoDup (db_id <$> Program.get_all t).
Proof. rewrite get_all_ids. apply NoDup_fst_map_to_list. Qed.

Lemma get_all_lookup t d :
  d ∈ Program.get_all t → t !! db_id d = Some (row_of d).
Proof.
  unfold Program.get_all. intros ([k r] & -> & Hin)%list_elem_of_fmap.
  apply elem_of_map_to_list in Hin. by rewrite row_of_to_dict.
Qed.

Lemma elem_of_keys {A} (m : gmap string A) k :
  k ∈ (map_to_list m).*1 ↔ is_Some (m !! k).
Proof.
  rewrite list_elem_of_fmap. split.
  - intros ([k' x] & -> & Hin). apply elem_of_map_to_list in Hin. eauto.
  - intros [x Hx]. exists (k, x). split; [done|]. by apply elem_of_map_to_list.
Qed.

Lemma elem_of_get_all_ids t k :
  k ∈ db_id <$> Program.get_all t ↔ is_Some (t !! k).
Proof. rewrite get_all_ids. apply elem_of_keys. Qed.

Lemma elem_of_get_all_names d k :
  k ∈ ProgramsFileManager.get_all_names d ↔ is_Some (files d !! k).
Proof. apply elem_of_keys. Qed.

(** The three writes of the pass, on a table that holds (or lacks) the id. *)
Lemma delete_known P k r t :
  t !! k = Some r → Program.delete_program P k t = Ok (delete k t).
Proof.
  intros H. unfold Program.delete_program, Program.exists_.
  rewrite bool_decide_eq_true_2 by eauto. by rewrite andb_false_r.
Qed.

Lemma update_known P now k r n d b t :
  t !! k = Some r →
  Program.update_program P now k n d b t
  = Ok (<[k := Program.update_row now n d b r]> t).
Proof.
  intros H. unfold Program.update_program, Program.exists_.
  rewrite bool_decide_eq_true_2 by eauto. rewrite andb_false_r. f_equal.
  apply map_eq. intros j. rewrite lookup_alter, lookup_insert.
  repeat case_decide; simplify_eq; by rewrite ?H.
Qed.

Lemma insert_unknown P now k n d b t :
  t !! k = None →
  Program.insert_program P now k n d b t = Ok (<[k := Row n d now b]> t).
Proof.
  intros H. unfold Program.insert_program, Program.exists_.
  rewrite bool_decide_eq_false_2; [by rewrite andb_false_r|].
  rewrite H. by intros [? ?].
Qed.

Section ReconcileLoops.
Variable P : policy.
Variable now : string.
Variables py bl : list string.

Lemma record_pass_step d s :
  database s !! db_id d = Some (row_of d) →
  ∃ s', record_pass P now py bl d s = (s', Ok tt) ∧ same_files s s' ∧
    database s' !! db_id d = reconciled now py bl (db_id d) (row_of d) ∧
    ∀ k, k ≠ db_id d → database s' !! k = database s !! k.
Proof.
  intros Hd. unfold record_pass, reconciled.
  destruct (bool_decide (db_id d ∈ py)); simpl.
  - change (row_has_blockly (row_of d)) with (db_has_blockly d).
    destruct (db_has_blockly d && negb (bool_decide (db_id d ∈ bl))).
    + unfold bind, logwarn, on_database; simpl.
      rewrite (update_known _ _ _ _ _ _ _ _ Hd). eexists. split; [done|].
      split; [by repeat split|]. simpl. split.
      * by rewrite lookup_insert_eq.
      * intros k Hk. by rewrite lookup_insert_ne.
    + exists s. by repeat split.
  - unfold bind, logwarn, on_database; simpl.
    rewrite (delete_known _ _ _ _ Hd). eexists. split; [done|].
    split; [by repeat split|]. simpl. split.
    + by rewrite lookup_delete_eq.
    + intros k Hk. by rewrite lookup_delete_ne.
Qed.

Lemma record_loop l : ∀ s,
  NoDup (db_id <$> l) →
  (∀ d, d ∈ l → database s !! db_id d = Some (row_of d)) →
  ∃ s', for_each l (record_pass P now py bl) s = (s', Ok tt) ∧ same_files s s' ∧
    ∀ k, database s' !! k =
         if bool_decide (k ∈ db_id <$> l)
         then database s !! k ≫= reconciled now py bl k
         else database s !! k.
Proof.
  induction l as [|d l IH]; intros s Hnd Hag.
  - exists s. split; [done|]. split; [apply same_files_refl|].
    intros k. rewrite bool_decide_eq_false_2; [done|]. apply not_elem_of_nil.
  - rewrite fmap_cons in Hnd. apply NoDup_cons in Hnd as [Hnotin Hnd].
    destruct (record_pass_step d s) as (s1 & Hrun & Hsame & Hat & Hother).
    { apply Hag. left. }
    destruct (IH s1 Hnd) as (s2 & Hrun2 & Hsame2 & Hlook).
    { intros d' Hd'. rewrite Hother.
      - apply Hag. by right.
      - intros Heq. apply Hnotin. rewrite <- Heq. by apply list_elem_of_fmap_2. }
    exists s2. split.
    { simpl. unfold bind. by rewrite Hrun. }
    split; [by eapply same_files_trans|].
    intros k. rewrite Hlook, fmap_cons.
    destruct (decide (k = db_id d)) as [->|Hne].
    + rewrite (bool_decide_eq_false_2 _ Hnotin).
      rewrite bool_decide_eq_true_2 by left.
      rewrite Hat, (Hag d) by left. done.
    + rewrite (Hother _ Hne).
      rewrite (bool_decide_ext (k ∈ db_id d :: (db_id <$> l)) (k ∈ db_id <$> l)); [done|].
      rewrite elem_of_cons. split; [by intros [?|?]|by right].
Qed.

Lemma file_pass_step ids p s :
  (p ∉ ids → database s !! p = None) →
  ∃ s', file_pass P now bl ids p s = (s', Ok tt) ∧ same_files s s' ∧
    database s' !! p = (if bool_decide (p ∈ ids) then database s !! p
                        else Some (adopted now bl p)) ∧
    ∀ k, k ≠ p → database s' !! k = database s !! k.
Proof.
  intros Hfresh. unfold file_pass.
  destruct (decide (p ∈ ids)) as [Hin|Hout].
  - rewrite (bool_decide_eq_true_2 _ Hin). simpl. exists s. by repeat split.
  - rewrite (bool_decide_eq_false_2 _ Hout). simpl.
    unfold bind, logwarn, on_database; simpl.
    rewrite insert_unknown by auto. eexists. split; [done|].
    split; [by repeat split|]. simpl. split.
    + by rewrite lookup_insert_eq.
    + intros k Hk. by rewrite lookup_insert_ne.
Qed.

Lemma file_loop ids l : ∀ s,
  NoDup l →
  (∀ p, p ∈ l → p ∉ ids → database s !! p = None) →
  ∃ s', for_each l (file_pass P now bl ids) s = (s', Ok tt) ∧ same_files s s' ∧
    ∀ k, database s' !! k =
         if bool_decide (k ∈ l) && negb (bool_decide (k ∈ ids))
         then Some (adopted now bl k)
         else database s !! k.
Proof.
  induction l as [|p l IH]; intros s Hnd Hfresh.
  - exists s. split; [done|]. split; [apply same_files_refl|].
    intros k. rewrite bool_decide_eq_false_2; [done|]. apply not_elem_of_nil.
  - apply NoDup_cons in Hnd as [Hnotin Hnd].
    destruct (file_pass_step ids p s) as (s1 & Hrun & Hsame & Hat & Hother).
    { apply Hfresh. left. }
    destruct (IH s1 Hnd) as (s2 & Hrun2 & Hsame2 & Hlook).
    { intros p' Hp' Hout. rewrite Hother.
      - apply Hfresh; [by right|done].
      - intros ->. done. }
    exists s2. split.
    { simpl. unfold bind. by rewrite Hrun. }
    split; [by eapply same_files_trans|].
    intros k. rewrite Hlook.
    destruct (decide (k = p)) as [->|Hne].
    + rewrite (bool_decide_eq_false_2 _ Hnotin). simpl.
      rewrite bool_decide_eq_true_2 by left. simpl. rewrite Hat.
      by destruct (bool_decide (p ∈ ids)).
    + rewrite (Hother _ Hne).
      rewrite (bool_decide_ext (k ∈ p :: l) (k ∈ l)); [done|].
      rewrite elem_of_cons. split; [by intros [?|?]|by right].
Qed.

End ReconcileLoops.

Lemma sync_unfold P now s :
  sync_db_with_system P now s =
  (let python_programs := ProgramsFileManager.get_all_names (python_manager s) in
   let blockly_programs := ProgramsFileManager.get_all_names (blockly_manager s) in
   let db_programs := Program.get_all (database s) in
   (for_each db_programs (record_pass P now python_programs blockly_programs) ;;
    for_each python_programs (file_pass P now blockly_programs (db_id <$> db_programs))) s).
Proof. reflexivity. Qed.

(** The pass never raises, touches nothing but the table and the log, and
    leaves under every id the row the two loops compute for it. *)
Lemma sync_run P now s :
  let python_programs := ProgramsFileManager.get_all_names (python_manager s) in
  let blockly_programs := ProgramsFileManager.get_all_names (blockly_manager s) in
  ∃ s', sync_db_with_system P now s = (s', Ok tt) ∧ same_files s s' ∧
    ∀ k, database s' !! k =
         match database s !! k with
         | Some r => reconciled now python_programs blockly_programs k r
         | None => if bool_decide (k ∈ python_programs)
                   then Some (adopted now blockly_programs k) else None
         end.
Proof.
  intros py bl. rewrite sync_unfold. fold py bl. cbv zeta.
  set (l := Program.get_all (database s)).
  destruct (record_loop P now py bl l s) as (s1 & Hrun1 & Hsame1 & Hlook1).
  { apply get_all_NoDup. }
  { apply get_all_lookup. }
  destruct (file_loop P now bl (db_id <$> l) py s1) as (s2 & Hrun2 & Hsame2 & Hlook2).
  { apply NoDup_fst_map_to_list. }
  { intros p _ Hout. rewrite Hlook1, (bool_decide_eq_false_2 _ Hout).
    apply eq_None_not_Some. intros Hsome. apply Hout.
    by apply elem_of_get_all_ids. }
  exists s2. split.
  { unfold bind. by rewrite Hrun1. }
  split; [by eapply same_files_trans|].
  intros k. rewrite Hlook2, Hlook1.
  destruct (database s !! k) as [r|] eqn:Hk.
  - rewrite (bool_decide_eq_true_2 (k ∈ db_id <$> l)).
    + by rewrite andb_false_r.
    + apply elem_of_get_all_ids. eauto.
  - rewrite (bool_decide_eq_false_2 (k ∈ db_id <$> l)).
    + rewrite andb_true_r. by destruct (bool_decide (k ∈ py)).
    + intros Hin%elem_of_get_all_ids. rewrite Hk in Hin. by destruct Hin.
Qed.

Lemma sync_invariants P now s :
  let s' := (sync_db_with_system P now s).1 in I1 s' ∧ I2 s' ∧ I3 s'.
Proof.
  destruct (sync_run P now s) as (s' & Hrun & (Hpy & Hbl & _ & _) & Hlook).
  rewrite Hrun. simpl. unfold I1, I2, I3. rewrite Hpy, Hbl.
  unfold reconciled, adopted in Hlook. repeat split.
  - intros k [r' Hr']. rewrite Hlook in Hr'. apply elem_of_get_all_names.
    destruct (database s !! k);
      destruct (decide (k ∈ ProgramsFileManager.get_all_names (python_manager s)));
      try done; by rewrite bool_decide_eq_false_2 in Hr'.
  - intros k r' Hr' Hb. rewrite Hlook in Hr'. apply elem_of_get_all_names.
    destruct (decide (k ∈ ProgramsFileManager.get_all_names (blockly_manager s)))
      as [|Hout]; [done|exfalso].
    rewrite (bool_decide_eq_false_2 _ Hout) in Hr'.
    destruct (database s !! k) as [r|];
      destruct (bool_decide (k ∈ ProgramsFileManager.get_all_names (python_manager s)));
      simplify_eq; simpl in Hb; try done.
    by destruct (row_has_blockly r) eqn:Hr; simpl in Hb; rewrite ?Hr in Hb.
  - intros k Hk%elem_of_get_all_names. rewrite Hlook.
    destruct (database s !! k); rewrite bool_decide_eq_true_2 by done; eauto.
Qed.

Lemma for_each_skip {A} (body : A → M unit) l s :
  (∀ x, x ∈ l → body x s = (s, Ok tt)) → for_each l body s = (s, Ok tt).
Proof.
  induction l as [|x l IH]; intros H; [done|].
  simpl. unfold bind. rewrite H by left. apply IH.
  intros y Hy. apply H. by right.
Qed.

(** On stores that satisfy the three invariants the pass finds nothing to
    repair: it returns the state it was given, log included. *)
Lemma sync_fixpoint P now s :
  I1 s → I2 s → I3 s → sync_db_with_system P now s = (s, Ok tt).
Proof.
  intros H1 H2 H3. rewrite sync_unfold. cbv zeta. unfold bind.
  rewrite for_each_skip.
  - apply for_each_skip. intros p Hp%elem_of_get_all_names.
    unfold file_pass. rewrite bool_decide_eq_true_2; [done|].
    apply elem_of_get_all_ids. by apply H3.
  - intros d Hd%get_all_lookup. unfold record_pass.
    rewrite bool_decide_eq_true_2.
    2:{ apply elem_of_get_all_names, H1. eauto. }
    simpl. destruct (db_has_blockly d) eqn:Hb; [|done].
    rewrite bool_decide_eq_true_2; [done|].
    apply elem_of_get_all_names. by apply (H2 _ _ Hd).
Qed.

(** C2: the reconciliation pass never raises, and run a second time, with
    no mutation in between, it returns the state the first run left: the
    table is the same and no warning is logged, that is, the second run
    deletes no record, clears no has_blockly flag and inserts no record. *)
Theorem reconciliation_idempotent P now now' s :
  (sync_db_with_system P now s).2 = Ok tt ∧
  sync_db_with_system P now' (sync_db_with_system P now s).1
  = ((sync_db_with_system P now s).1, Ok tt).
Proof.
  pose proof (sync_invariants P now s) as (H1 & H2 & H3).
  destruct (sync_run P now s) as (s' & Hrun & _). rewrite Hrun in *.
  split; [done|]. by apply sync_fixpoint.
Qed.

(** C3: a script file whose id has no metadata record is adopted by the
    reconciliation pass: the table then holds a record for that id whose
    name is the id, whose description is "Unknown program" and whose
    has_blockly flag is true exactly when the visual store holds a file
    of that id. *)
Theorem orphan_file_adopted P now s k :
  is_Some (files (python_manager s) !! k) →
  database s !! k = None →
  ∃ s', sync_db_with_system P now s = (s', Ok tt) ∧
    database s' !! k
    = Some (Row k "Unknown program" now
                (bool_decide (is_Some (files (blockly_manager s) !! k)))).
Proof.
  intros Hfile Hnew.
  destruct (sync_run P now s) as (s' & Hrun & _ & Hlook).
  exists s'. split; [done|]. rewrite Hlook, Hnew.
  rewrite bool_decide_eq_true_2 by by apply elem_of_get_all_names.
  unfold adopted. do 2 f_equal. apply bool_decide_ext, elem_of_get_all_names.
Qed.

(** C3 at the script file "p2" of [drifted], which the table lacks. *)
Lemma orphan_file_adopted_witness :
  ∃ s', sync_db_with_system strict "2024-06-01" drifted = (s', Ok tt) ∧
    database s' !! "p2"
    = Some (Row "p2" "Unknown program" "2024-06-01"
                (bool_decide (is_Some (files (blockly_manager drifted) !! "p2")))).
Proof.
  apply (orphan_file_adopted strict "2024-06-01" drifted "p2").
  - by eexists.
  - reflexivity.
Defined.

(** C4 as stated fails: the repair of a dangling visual flag is a
    metadata write, and the store stamps the record with the time of
    that write, so has_blockly is not the only field that changes: the
    record of "p1" after the pass is not the old one with the flag
    cleared. *)
Lemma dangling_flag_repair_restamps :
  database drifted !! "p1" = Some (Row "pick" "pick and place" "2024-01-01" true) ∧
  is_Some (files (python_manager drifted) !! "p1") ∧
  files (blockly_manager drifted) !! "p1" = None ∧
  database (sync_db_with_system lenient "2024-06-01" drifted).1 !! "p1"
  ≠ Some (Row "pick" "pick and place" "2024-01-01" false).
Proof.
  split; [reflexivity|]. split; [by eexists|]. split; [reflexivity|].
  destruct (sync_run lenient "2024-06-01" drifted) as (s' & Hrun & _ & Hlook).
  rewrite Hrun. simpl. rewrite Hlook. vm_compute. discriminate.
Qed.

(** C4, amended: for a record flagged has_blockly whose id has a script
    file but no visual file, the reconciliation pass keeps the record with
    its name and description, clears has_blockly and stamps saved_at with
    the time of the repair; it leaves both file stores as they were, so
    the script file is kept and no visual body is created. *)
Theorem dangling_flag_repair P now s k r :
  database s !! k = Some r →
  row_has_blockly r = true →
  is_Some (files (python_manager s) !! k) →
  files (blockly_manager s) !! k = None →
  ∃ s', sync_db_with_system P now s = (s', Ok tt) ∧
    database s' !! k = Some (Row (row_name r) (row_description r) now false) ∧
    python_manager s' = python_manager s ∧
    blockly_manager s' = blockly_manager s.
Proof.
  intros Hk Hflag Hpy Hbl.
  destruct (sync_run P now s) as (s' & Hrun & (Hp & Hb & _) & Hlook).
  exists s'. split; [done|]. split; [|done].
  rewrite Hlook, Hk. unfold reconciled.
  rewrite bool_decide_eq_true_2 by by apply elem_of_get_all_names.
  rewrite Hflag, bool_decide_eq_false_2; [done|].
  rewrite elem_of_get_all_names, Hbl. by intros [? ?].
Qed.

(** C4 amended, at the record "p1" of [drifted]. *)
Lemma dangling_flag_repair_witness :
  ∃ s', sync_db_with_system strict "2024-06-01" drifted = (s', Ok tt) ∧
    database s' !! "p1" = Some (Row "pick" "pick and place" "2024-06-01" false) ∧
    python_manager s' = python_manager drifted ∧
    blockly_manager s' = blockly_manager drifted.
Proof.
  apply (dangling_flag_repair strict "2024-06-01" drifted "p1"
           (Row "pick" "pick and place" "2024-01-01" true)).
  - reflexivity.
  - reflexivity.
  - by eexists.
  - reflexivity.
Defined.

(** * Program handling *)

Ltac run_method :=
  unfold create_program, update_program, delete_program, get, bind,
    on_database, on_python, on_blockly, ask, ret, programs_pop, programs_set;
  simpl.

Lemma alter_unknown {A} (f : A → A) k (t : gmap string A) :
  t !! k = None → alter f k t = t.
Proof.
  intros H. apply map_eq. intros j. rewrite lookup_alter.
  case_decide; simplify_eq; by rewrite ?H.
Qed.

Lemma lookup_alter_is_Some {A} (f : A → A) k j (t : gmap string A) :
  is_Some (alter f k t !! j) ↔ is_Some (t !! j).
Proof.
  rewrite lookup_alter. case_decide; [|done]. subst. apply fmap_is_Some.
Qed.

Lemma edit_known P k body code d :
  files d !! k = Some body → writable d = true →
  ProgramsFileManager.edit P k code d = Ok (with_files (<[k := code]> (files d)) d).
Proof.
  intros H Hw. unfold ProgramsFileManager.edit, ProgramsFileManager.exists_.
  rewrite Hw, bool_decide_eq_true_2 by eauto. simpl. by rewrite andb_false_r.
Qed.

Lemma edit_unwritable P k code d :
  writable d = false → ProgramsFileManager.edit P k code d = Raise StorageFailure.
Proof. intros Hw. unfold ProgramsFileManager.edit. by rewrite Hw. Qed.

(** C5: when the id drawn for the new program is fresh (no record and no
    script file bear it) and the script directory can be written,
    [create_program] without a visual body returns that id, and [get] on
    it then returns a record whose python_code is the body given to
    create, whose has_blockly is false and whose blockly_code is empty
    (and which carries the name, description and id given). *)
Theorem create_then_get P now s program_id n d code :
  database s !! program_id = None →
  files (python_manager s) !! program_id = None →
  writable (python_manager s) = true →
  ∃ s' p,
    create_program P now program_id n d code "" s = (s', Ok program_id) ∧
    get program_id s' = (s', Ok p) ∧
    python_code p = code ∧ has_blockly p = false ∧ blockly_code p = "" ∧
    name p = n ∧ description p = d ∧ id p = program_id.
Proof.
  intros Hdb Hpy Hw. run_method.
  rewrite insert_unknown by done. simpl.
  unfold ProgramsFileManager.create, ProgramsFileManager.exists_.
  rewrite Hw, Hpy. simpl.
  rewrite andb_false_r. simpl.
  unfold Program.get_by_id, ProgramsFileManager.read. simpl.
  rewrite !lookup_insert_eq. simpl.
  eexists _, _. split; [reflexivity|]. simpl.
  rewrite !lookup_insert_eq. simpl. done.
Qed.

(** C5 at a fresh id on stores that agree. *)
Lemma create_then_get_witness :
  ∃ s' p,
    create_program strict "2024-06-02" "id1" "n" "d" "print(1)" "" reconciled_state
    = (s', Ok "id1") ∧
    get "id1" s' = (s', Ok p) ∧
    python_code p = "print(1)" ∧ has_blockly p = false ∧ blockly_code p = "" ∧
    name p = "n" ∧ description p = "d" ∧ id p = "id1".
Proof.
  apply (create_then_get strict "2024-06-02" reconciled_state "id1" "n" "d" "print(1)");
    reflexivity.
Defined.

(** C10: for a program that has a record flagged has_blockly, a script
    file and a visual file, [update_program] with an empty visual body
    (which is also what an omitted one is) leaves a record whose
    has_blockly is false, so that [get] then returns an empty
    blockly_code; it does not touch the visual store, where the old
    visual file stays, and a later reconciliation pass leaves that file
    there too.  This holds on every exit of the call, also when the
    script write or the cache update raises. *)
Theorem update_without_visual P now s program_id n d code r visual :
  database s !! program_id = Some r →
  row_has_blockly r = true →
  is_Some (files (python_manager s) !! program_id) →
  files (blockly_manager s) !! program_id = Some visual →
  let s' := (update_program P now program_id n d code "" s).1 in
  (∃ r', database s' !! program_id = Some r' ∧ row_has_blockly r' = false) ∧
  (∃ p, get program_id s' = (s', Ok p) ∧ has_blockly p = false ∧ blockly_code p = "") ∧
  blockly_manager s' = blockly_manager s ∧
  files (blockly_manager s') !! program_id = Some visual ∧
  ∀ now', files (blockly_manager (sync_db_with_system P now' s').1) !! program_id
          = Some visual.
Proof.
  intros Hdb _ [body Hpy] Hbl s'.
  assert (database s' !! program_id
          = Some (Row n d now false) ∧
          is_Some (files (python_manager s') !! program_id) ∧
          blockly_manager s' = blockly_manager s) as (Hdb' & [body' Hpy'] & Hbl').
  { subst s'. run_method. rewrite (update_known _ _ _ _ _ _ _ _ Hdb). simpl.
    destruct (writable (python_manager s)) eqn:Hw.
    - rewrite (edit_known _ _ _ _ _ Hpy Hw). simpl.
      unfold Program.get_by_id, ProgramsFileManager.read.
      destruct (programs s !! program_id); simpl;
        rewrite ?lookup_insert_eq; simpl; rewrite ?lookup_insert_eq; eauto.
    - rewrite (edit_unwritable _ _ _ _ Hw). simpl.
      rewrite lookup_insert_eq. eauto. }
  split; [eauto|]. split.
  { run_method. unfold Program.get_by_id, ProgramsFileManager.read.
    rewrite Hdb', Hpy'. simpl. eauto. }
  split; [done|]. split; [by rewrite Hbl'|].
  intros now'. destruct (sync_run P now' s') as (s2 & Hrun & (_ & Hb2 & _) & _).
  rewrite Hrun. simpl. by rewrite Hb2, Hbl'.
Qed.

(** C10 at the program "p1" of [with_visual]. *)
Lemma update_without_visual_witness :
  let s' := (update_program strict "2024-06-02" "p1" "pick" "again" "print(4)" ""
               with_visual).1 in
  (∃ r', database s' !! "p1" = Some r' ∧ row_has_blockly r' = false) ∧
  (∃ p, get "p1" s' = (s', Ok p) ∧ has_blockly p = false ∧ blockly_code p = "") ∧
  blockly_manager s' = blockly_manager with_visual ∧
  files (blockly_manager s') !! "p1" = Some "<xml/>" ∧
  ∀ now', files (blockly_manager (sync_db_with_system strict now' s').1) !! "p1"
          = Some "<xml/>".
Proof.
  apply (update_without_visual strict "2024-06-02" with_visual "p1" "pick" "again"
           "print(4)" (Row "pick" "pick and place" "2024-01-01" true) "<xml/>").
  - reflexivity.
  - reflexivity.
  - by eexists.
  - reflexivity.
Defined.

Ltac failed_update :=
  simpl; split; [eauto|]; split; [done|]; split; [done|];
  intros [?|[? ?]]; simplify_eq; done.

(** C6 as stated fails when neither store rejects an unknown id: the
    metadata update matches no row, the script store writes the body, and
    only then does the cache lookup raise; the call has failed and the
    script store holds a file it did not hold before. *)
Lemma update_unknown_writes_script :
  database drifted !! "ghost" = None ∧
  programs drifted !! "ghost" = None ∧
  files (python_manager drifted) !! "ghost" = None ∧
  (update_program lenient "2024-06-02" "ghost" "n" "d" "print(3)" "" drifted).2
  = Raise KeyError ∧
  files (python_manager
           (update_program lenient "2024-06-02" "ghost" "n" "d" "print(3)" "" drifted).1)
    !! "ghost" = Some "print(3)".
Proof. repeat split; vm_compute; reflexivity. Qed.

(** C6, amended: for an id that neither the metadata store nor the cache
    knows, [update_program] never returns normally, and it leaves the
    metadata store and the cache as they were.  Both file stores (the
    whole state) are unchanged as well when the metadata store rejects
    the update of an unknown id, or when the script store holds no file
    of that id and rejects the edit of an unknown id; the method itself
    looks the id up only after it has issued the writes. *)
Theorem update_unknown_fails P now s program_id n d code visual :
  database s !! program_id = None →
  programs s !! program_id = None →
  let out := update_program P now program_id n d code visual s in
  (∃ e, out.2 = Raise e) ∧
  database out.1 = database s ∧
  programs out.1 = programs s ∧
  (update_rejects_unknown P = true ∨
   (edit_rejects_unknown P = true ∧ files (python_manager s) !! program_id = None) →
   out.1 = s).
Proof.
  intros Hdb Hcache. destruct s as [t py bl c r w]. simpl in *.
  run_method. unfold Program.update_program, Program.exists_.
  rewrite (alter_unknown _ _ _ Hdb), Hdb.
  rewrite (bool_decide_eq_false_2 (is_Some None)) by by intros [? ?].
  rewrite andb_true_r. simpl.
  destruct (update_rejects_unknown P) eqn:Hu; simpl.
  { failed_update. }
  destruct (writable py) eqn:Hw.
  2:{ rewrite (edit_unwritable _ _ _ _ Hw). failed_update. }
  assert (ProgramsFileManager.edit P program_id code py
          = if edit_rejects_unknown P && negb (bool_decide (is_Some (files py !! program_id)))
            then Raise NotFound
            else Ok (with_files (<[program_id := code]> (files py)) py)) as ->.
  { unfold ProgramsFileManager.edit, ProgramsFileManager.exists_. by rewrite Hw. }
  destruct (files py !! program_id) as [body|] eqn:Hpy.
  - rewrite bool_decide_eq_true_2 by eauto. rewrite andb_false_r.
    destruct (bool_decide (visual ≠ "")); simpl.
    + destruct (ProgramsFileManager.edit P program_id visual bl); simpl;
        rewrite ?Hcache; failed_update.
    + rewrite Hcache. failed_update.
  - rewrite bool_decide_eq_false_2 by by intros [? ?]. rewrite andb_true_r.
    destruct (edit_rejects_unknown P) eqn:He; simpl.
    { failed_update. }
    destruct (bool_decide (visual ≠ "")); simpl.
    + destruct (ProgramsFileManager.edit P program_id visual bl); simpl;
        rewrite ?Hcache; failed_update.
    + rewrite Hcache. failed_update.
Qed.

(** C6 amended, at an unknown id on stores that reject it. *)
Lemma update_unknown_fails_witness :
  let out := update_program strict "2024-06-02" "ghost" "n" "d" "print(3)" "" drifted in
  (∃ e, out.2 = Raise e) ∧
  database out.1 = database drifted ∧
  programs out.1 = programs drifted ∧
  (update_rejects_unknown strict = true ∨
   (edit_rejects_unknown strict = true ∧ files (python_manager drifted) !! "ghost" = None) →
   out.1 = drifted).
Proof.
  apply (update_unknown_fails strict "2024-06-02" drifted "ghost" "n" "d" "print(3)" "");
    reflexivity.
Defined.

(** ** The script invariant under the three mutations *)

Lemma hoare_bind {A B} pre mid post (m : M A) (k : A → M B) :
  hoare pre m mid →
  (∀ a, hoare (mid (Ok a)) (k a) post) →
  (∀ e s, mid (Raise e) s → post (Raise e) s) →
  hoare pre (bind m k) post.
Proof.
  intros Hm Hk He s Hs. specialize (Hm s Hs). unfold bind.
  destruct (m s) as [s' [a|e]]; simpl in *.
  - by apply Hk.
  - by apply He.
Qed.

Lemma keeps_scripts_bind {A B} (m : M A) (k : A → M B) :
  keeps_scripts m → (∀ a, keeps_scripts (k a)) → keeps_scripts (bind m k).
Proof.
  intros Hm Hk s. specialize (Hm s). unfold bind.
  destruct (m s) as [s' [a|e]]; simpl in *; [|done].
  destruct (Hk a s') as [-> ->]. done.
Qed.

Lemma keeps_scripts_ask {A} (f : manager → result A) : keeps_scripts (ask f).
Proof. by intros s. Qed.

Lemma keeps_scripts_ret {A} (a : A) : keeps_scripts (ret a).
Proof. by intros s. Qed.

Lemma keeps_scripts_get program_id : keeps_scripts (get program_id).
Proof.
  unfold get. repeat (apply keeps_scripts_bind; [|intros ?]);
    try apply keeps_scripts_ask; try apply keeps_scripts_ret.
  destruct (db_has_blockly _); [apply keeps_scripts_ask|apply keeps_scripts_ret].
Qed.

Lemma keeps_scripts_pop key : keeps_scripts (programs_pop key).
Proof. intros s. unfold programs_pop. by destruct (programs s !! key). Qed.

Lemma keeps_scripts_set key value : keeps_scripts (programs_set key value).
Proof. by intros s. Qed.

Lemma keeps_scripts_blockly f : keeps_scripts (on_blockly f).
Proof. intros s. unfold on_blockly. by destruct (f (blockly_manager s)). Qed.

Lemma keeps_scripts_hoare {A} (m : M A) (Q : gmap string row → fstore → Prop) :
  keeps_scripts m →
  hoare (λ s, Q (database s) (python_manager s)) m
        (λ _ s, Q (database s) (python_manager s)).
Proof. intros Hm s Hs. by destruct (Hm s) as [-> ->]. Qed.

Lemma update_preserves_I1 P now program_id n d code visual :
  hoare I1 (update_program P now program_id n d code visual) (λ _, I1).
Proof.
  unfold update_program.
  eapply hoare_bind with (mid := λ _, I1); [|intros _|done].
  { intros s Hs. unfold on_database, Program.update_program.
    destruct (_ && _); simpl; [done|].
    intros k Hk. simpl in *. apply lookup_alter_is_Some in Hk. by apply Hs. }
  eapply hoare_bind with (mid := λ _, I1); [|intros _|done].
  { intros s Hs. unfold on_python, ProgramsFileManager.edit.
    destruct (negb _); simpl; [done|]. destruct (_ && _); simpl; [done|].
    intros k Hk. simpl in *. rewrite lookup_insert.
    case_decide; [eauto|by apply Hs]. }
  apply (keeps_scripts_hoare _ scripts_cover).
  apply keeps_scripts_bind; [|intros _].
  { destruct (bool_decide _); [apply keeps_scripts_blockly|apply keeps_scripts_ret]. }
  apply keeps_scripts_bind; [apply keeps_scripts_pop|intros _].
  apply keeps_scripts_bind; [apply keeps_scripts_get|intros p].
  apply keeps_scripts_set.
Qed.

Lemma delete_preserves_I1 P program_id :
  hoare I1 (delete_program P program_id) (λ _, I1).
Proof.
  unfold delete_program.
  eapply hoare_bind with
    (mid := λ r s, I1 s ∧ (is_ok r = true → database s !! program_id = None));
    [|intros ?|by intros e s [? _]].
  { intros s Hs. unfold on_database, Program.delete_program.
    destruct (_ && _); simpl; [done|]. split.
    - intros k Hk. simpl in *. rewrite lookup_delete in Hk.
      case_decide; [by destruct Hk|by apply Hs].
    - intros _. apply lookup_delete_eq. }
  eapply hoare_bind with (mid := λ _, I1); [|intros _|done].
  { intros s [Hs Hgone]. specialize (Hgone eq_refl).
    unfold on_python, ProgramsFileManager.remove.
    destruct (_ && _); simpl; [done|].
    intros k Hk. simpl in *. rewrite lookup_delete.
    case_decide; [|by apply Hs]. subst. rewrite Hgone in Hk. by destruct Hk. }
  apply (keeps_scripts_hoare _ scripts_cover).
  apply keeps_scripts_bind; [apply keeps_scripts_pop|intros p].
  destruct (has_blockly p); [apply keeps_scripts_blockly|apply keeps_scripts_ret].
Qed.

Lemma create_preserves_I1 P now program_id n d code visual :
  hoare (λ s, I1 s ∧ writable (python_manager s) = true)
        (create_program P now program_id n d code visual) (λ _, I1).
Proof.
  unfold create_program.
  eapply hoare_bind with
    (mid := λ r s, if is_ok r
                   then (∀ k, k ≠ program_id → is_Some (database s !! k) →
                              is_Some (files (python_manager s) !! k))
                        ∧ writable (python_manager s) = true
                   else I1 s);
    [|intros ?|by intros e s ?].
  { intros s [Hs Hw]. unfold on_database, Program.insert_program.
    destruct (_ && _); simpl; [done|]. split; [|done].
    intros k Hne Hk. simpl in *. rewrite lookup_insert_ne in Hk by done.
    by apply Hs. }
  eapply hoare_bind with (mid := λ _, I1); [|intros _|done].
  { intros s [Hs Hw]. unfold on_python, ProgramsFileManager.create,
      ProgramsFileManager.exists_.
    rewrite Hw. simpl.
    destruct (create_rejects_known P); simpl.
    - case_bool_decide as Hex; simpl.
      + intros k Hk. destruct (decide (k = program_id)) as [->|]; auto.
      + intros k Hk. simpl. rewrite lookup_insert.
        case_decide; [eauto|]. apply Hs; [congruence|done].
    - intros k Hk. simpl. rewrite lookup_insert.
      case_decide; [eauto|]. apply Hs; [congruence|done]. }
  apply (keeps_scripts_hoare _ scripts_cover).
  apply keeps_scripts_bind; [|intros _].
  { destruct (bool_decide _); [apply keeps_scripts_blockly|apply keeps_scripts_ret]. }
  apply keeps_scripts_bind; [apply keeps_scripts_get|intros p].
  apply keeps_scripts_bind; [apply keeps_scripts_set|intros _].
  apply keeps_scripts_ret.
Qed.

(** C1 as stated fails for a create that a storage failure interrupts:
    the metadata record is written first, the script write then raises,
    nothing is rolled back, and the table is left with a record that has
    no script file. *)
Lemma interrupted_create_breaks_I1 :
  I1 full_disk ∧
  (create_program lenient "2024-06-01" "id1" "n" "d" "print(1)" "" full_disk).2
  = Raise StorageFailure ∧
  ¬ I1 (create_program lenient "2024-06-01" "id1" "n" "d" "print(1)" "" full_disk).1.
Proof.
  split; [|split].
  - intros k [r Hr]. simpl in Hr. by rewrite lookup_empty in Hr.
  - reflexivity.
  - intros H. destruct (H "id1") as [x Hx]; [by eexists|].
    vm_compute in Hx. discriminate.
Qed.

(** C1, amended: after the reconciliation pass every id of the metadata
    store has a script file, and a record that had none at construction
    has been deleted by the pass; the invariant is kept by every
    [update_program] and [delete_program], however they end, and by
    every [create_program] run while the script directory can be
    written.  (A create whose script write fails leaves a record without
    file behind; the next reconciliation pass deletes it.) *)
Theorem script_invariant_upheld P now s :
  (I1 (sync_db_with_system P now s).1 ∧
   ∀ k, is_Some (database s !! k) → files (python_manager s) !! k = None →
        database (sync_db_with_system P now s).1 !! k = None) ∧
  (∀ program_id n d code visual,
     I1 s → I1 (update_program P now program_id n d code visual s).1) ∧
  (∀ program_id, I1 s → I1 (delete_program P program_id s).1) ∧
  (∀ program_id n d code visual,
     I1 s → writable (python_manager s) = true →
     I1 (create_program P now program_id n d code visual s).1).
Proof.
  repeat split.
  - apply sync_invariants.
  - intros k [r Hr] Hnone.
    destruct (sync_run P now s) as (s' & Hrun & _ & Hlook).
    rewrite Hrun. simpl. rewrite Hlook, Hr. unfold reconciled.
    rewrite bool_decide_eq_false_2; [done|].
    rewrite elem_of_get_all_names, Hnone. by intros [? ?].
  - intros. by apply update_preserves_I1.
  - intros. by apply delete_preserves_I1.
  - intros. by apply create_preserves_I1.
Qed.

(** C1 amended, at a create on stores that agree. *)
Lemma script_invariant_upheld_witness :
  I1 (create_program strict "2024-06-02" "id1" "n" "d" "print(1)" "" reconciled_state).1.
Proof.
  apply (script_invariant_upheld strict "2024-06-02" reconciled_state).
  - intros k [r Hr].
    destruct (decide (k = "p1")) as [->|?]; [by eexists|].
    destruct (decide (k = "p2")) as [->|?]; [by eexists|].
    exfalso. simpl in Hr.
    by rewrite lookup_insert_ne, lookup_singleton_ne in Hr.
  - reflexivity.
Defined.

(** * Program executions *)


Lemma session_alone_app s1 s2 r :
  session_alone (s1 ++ s2)%list r = session_alone s2 (session_alone s1 r).
Proof. unfold session_alone. apply foldl_app. Qed.

Lemma thread_steps_app s1 s2 :
  thread_steps (s1 ++ s2)%list = thread_steps s1 + thread_steps s2.
Proof.
  induction s1 as [|e s1 IH]; [done|]. destruct e; simpl; by rewrite IH.
Qed.

Lemma poll_not_raised s c : not_raised c → not_raised (poll s c).
Proof.
  intros [-> | ->]; simpl; [|by right].
  destruct (_ && _); [by left|by right].
Qed.

(** One step of a later call while the session runs: the thread moves on
    towards its rejection and the runner only sees its own session. *)
Lemma step_while_running T w e n code tmp :
  run_phase (python_runner (mgr w)) = Running →
  keeps_running e = true →
  spawned w = turned_away n code tmp →
  (n = 0 → writable (python_manager (mgr w)) = true) →
  not_raised (caller w) →
  let w' := step T w e in
  run_phase (python_runner (mgr w')) = Running ∧
  python_runner (mgr w') = session_alone [e] (python_runner (mgr w)) ∧
  spawned w' = turned_away (n + thread_steps [e]) code tmp ∧
  (n + thread_steps [e] = 0 → writable (python_manager (mgr w')) = true) ∧
  not_raised (caller w').
Proof.
  intros Hrun He Hth Hw Hcall. destruct w as [s t c]. simpl in *. subst t.
  destruct e; try discriminate; simpl.
  - (* the thread runs *)
    destruct n as [|[|[|n]]]; simpl.
    + unfold ProgramsFileManager.temporary_enter. rewrite Hw by done. simpl.
      repeat split; auto; lia.
    + unfold PythonRunner.start_claim. rewrite Hrun. simpl.
      destruct s as [? ? ? ? [? ?] ?]; simpl in *.
      repeat split; auto; lia.
    + repeat split; auto; lia.
    + repeat split; auto; lia.
  - (* the caller polls *)
    rewrite Nat.add_0_r. repeat split; auto. by apply poll_not_raised.
  - (* the body prints *)
    rewrite Nat.add_0_r. unfold PythonRunner.emits. rewrite Hrun. simpl.
    repeat split; auto.
Qed.

Lemma run_while_running T code tmp schedule : ∀ w n,
  run_phase (python_runner (mgr w)) = Running →
  forallb keeps_running schedule = true →
  spawned w = turned_away n code tmp →
  (n = 0 → writable (python_manager (mgr w)) = true) →
  not_raised (caller w) →
  let w' := run T schedule w in
  python_runner (mgr w') = session_alone schedule (python_runner (mgr w)) ∧
  spawned w' = turned_away (n + thread_steps schedule) code tmp ∧
  not_raised (caller w').
Proof.
  induction schedule as [|e schedule IH]; intros w n Hrun Hquiet Hth Hw Hcall.
  - simpl. by rewrite Nat.add_0_r.
  - simpl in Hquiet. apply andb_prop in Hquiet as [He Hquiet].
    destruct (step_while_running T w e n code tmp Hrun He Hth Hw Hcall)
      as (Hrun' & Hr & Hth' & Hw' & Hcall').
    destruct (IH (step T w e) _ Hrun' Hquiet Hth' Hw' Hcall') as (Hr2 & Hth2 & Hcall2).
    unfold run, session_alone in *. simpl in *. repeat split; auto.
    + by rewrite Hr2, Hr.
    + rewrite Hth2. f_equal. destruct e; simpl; lia.
Qed.

(** Once its call of [start] has been turned away, the thread never
    touches the runner again, whatever the session does next. *)
Lemma run_after_rejection T code tmp schedule : ∀ w n,
  (2 ≤ n)%nat →
  spawned w = turned_away n code tmp →
  not_raised (caller w) →
  let w' := run T schedule w in
  python_runner (mgr w') = session_alone schedule (python_runner (mgr w)) ∧
  spawned w' = turned_away (n + thread_steps schedule) code tmp ∧
  not_raised (caller w').
Proof.
  induction schedule as [|e schedule IH]; intros w n Hn Hth Hcall.
  - simpl. by rewrite Nat.add_0_r.
  - assert (python_runner (mgr (step T w e)) = session_alone [e] (python_runner (mgr w)) ∧
            spawned (step T w e) = turned_away (n + thread_steps [e]) code tmp ∧
            not_raised (caller (step T w e))) as (Hr & Hth' & Hcall').
    { destruct w as [s t c]. simpl in *. subst t.
      destruct e; simpl; rewrite ?Nat.add_0_r; repeat split; auto.
      - by destruct n as [|[|[|n]]]; [lia..| |].
      - destruct n as [|[|[|n]]]; [lia..| |]; simpl; f_equal.
      - by apply poll_not_raised. }
    destruct (IH (step T w e) (n + thread_steps [e])) as (Hr2 & Hth2 & Hcall2);
      [lia|done..|].
    unfold run, session_alone in *. simpl in *. repeat split; auto.
    + by rewrite Hr2, Hr.
    + rewrite Hth2. f_equal. destruct e; simpl; lia.
Qed.

(** C7 as stated fails: with a session running, a second
    [execute_from_code] does not fail with AlreadyRunning.  The call
    itself returns normally; the rejection is raised by [start] inside
    the spawned thread, which ends with it. *)
Lemma second_call_returns_normally :
  let w := run OnceEnded [CallerPolls; ThreadRuns; ThreadRuns; ThreadRuns]
               (execute_from_code "print(2)" "/tmp/tmp1.py" busy) in
  execution_is_running busy = true ∧
  caller w = Done (Ok tt) ∧
  caller w ≠ Done (Raise AlreadyRunning) ∧
  spawned w = Finished (Some AlreadyRunning).
Proof. vm_compute. repeat split; done. Qed.

(** C7, amended: while a session is Running, the start request of a
    second [execute_from_code] is rejected at once and nothing is
    queued, but the rejection stays in the spawned thread.  Along every
    schedule [before] in which the session's body neither exits nor is
    stopped, the thread does exactly this: it enters the scope of its
    temporary file, calls [start], which raises AlreadyRunning in that
    very step, leaves the scope with the exception and ends with it;
    the runner is, state and output, exactly what the session makes of
    it by itself; and the call raises nothing.  Once the thread has made
    its call of [start] (its second step) this stays so along every
    continuation [after], also when the first session exits or is
    stopped there: the thread only runs to its end with AlreadyRunning,
    and no later session is started on its behalf.  This holds whether
    [start] would return once begun or once ended. *)
Theorem second_start_rejected T s code tmp before :
  run_phase (python_runner s) = Running →
  writable (python_manager s) = true →
  forallb keeps_running before = true →
  let w1 := run T before (execute_from_code code tmp s) in
  spawned w1 = turned_away (thread_steps before) code tmp ∧
  python_runner (mgr w1) = session_alone before (python_runner s) ∧
  not_raised (caller w1) ∧
  ((2 ≤ thread_steps before)%nat →
   ∀ after,
     let w := run T after w1 in
     spawned w = turned_away (thread_steps (before ++ after)) code tmp ∧
     python_runner (mgr w) = session_alone (before ++ after) (python_runner s) ∧
     not_raised (caller w)).
Proof.
  intros Hrun Hw Hquiet.
  destruct (run_while_running T code tmp before (execute_from_code code tmp s) 0)
    as (Hr & Hth & Hcall); simpl; auto.
  { by left. }
  simpl in *. split; [done|]. split; [done|]. split; [done|].
  intros Hcalled after.
  destruct (run_after_rejection T code tmp after
              (run T before (execute_from_code code tmp s)) (thread_steps before))
    as (Hr2 & Hth2 & Hcall2); auto.
  simpl in *. rewrite thread_steps_app, session_alone_app, <- Hr.
  repeat split; auto.
Qed.

(** C7 amended, at a second call on [busy]: the body of the first session
    prints while the second call is turned away, and exits afterwards;
    the session ends with its own output and status, and nothing was
    started for the second call. *)
Lemma second_start_rejected_witness :
  let before := [CallerPolls; ThreadRuns; BodyPrints "world"; ThreadRuns] in
  let after := [BodyExits 0; ThreadRuns; CallerPolls; ThreadRuns] in
  let w1 := run OnceEnded before (execute_from_code "print(2)" "/tmp/tmp1.py" busy) in
  let w := run OnceEnded after w1 in
  (spawned w1 = LeaveScope "/tmp/tmp1.py" (Some AlreadyRunning) ∧
   python_runner (mgr w1) = Runner Running ["hello"; "world"] ∧
   not_raised (caller w1)) ∧
  (spawned w = Finished (Some AlreadyRunning) ∧
   python_runner (mgr w) = Runner (Terminated (Exited 0)) ["hello"; "world"] ∧
   not_raised (caller w)).
Proof.
  destruct (second_start_rejected OnceEnded busy "print(2)" "/tmp/tmp1.py"
              [CallerPolls; ThreadRuns; BodyPrints "world"; ThreadRuns]
              eq_refl eq_refl eq_refl) as (Hth & Hr & Hcall & Hafter).
  split.
  - split; [exact Hth|]. split; [exact Hr|exact Hcall].
  - exact (Hafter (le_n 2) [BodyExits 0; ThreadRuns; CallerPolls; ThreadRuns]).
Defined.

(** On a runner that has never run, the handshake does what its comment
    says: the caller stays in the loop as long as the spawned thread has
    not moved. *)
Lemma first_execution_waits T schedule : ∀ w,
  run_phase (python_runner (mgr w)) = Idle →
  caller w = Waiting →
  ThreadRuns ∉ schedule →
  caller (run T schedule w) = Waiting ∧ spawned (run T schedule w) = spawned w.
Proof.
  unfold run.
  induction schedule as [|e schedule IH]; intros w Hidle Hw Hno; [done|].
  apply not_elem_of_cons in Hno as [Hne Hno]. simpl.
  destruct (IH (step T w e)) as [? ?]; auto.
  - destruct e; simpl; try done.
    + unfold PythonRunner.emits. by rewrite Hidle.
    + unfold PythonRunner.exits. by rewrite Hidle.
    + unfold stop_execution, PythonRunner.stop. simpl. by rewrite Hidle.
  - destruct e; simpl; try done. rewrite Hw. simpl.
    unfold execution_is_running, PythonRunner.is_running, PythonRunner.exit_status.
    by rewrite Hidle.
  - split; [done|]. destruct e; simpl in *; congruence.
Qed.

(** C8 fails on a runner that has already finished a session: the exit
    status of that earlier session is still set when the caller first
    polls, so [execute_from_id] returns while the spawned thread has not
    yet called [start]: the new execution is neither running nor
    terminated, and the runner still shows the old session.  This does
    not depend on when [start] returns. *)
Lemma execute_returns_on_stale_status T :
  let w := step T (execute_from_id "p1" finished_once) CallerPolls in
  caller w = Done (Ok tt) ∧
  spawned w = CallStart "/programs/python3/p1.py" None ∧
  execution_is_running (mgr w) = false ∧
  python_runner (mgr w) = python_runner finished_once.
Proof. vm_compute. repeat split; done. Qed.

(** The temporary file of one [execute_from_code] call lies in the script
    store exactly while the spawned thread is inside the block. *)
Lemma scoped_step T d0 code tmp w e :
  temps d0 !! tmp = None → scoped d0 code tmp w → scoped d0 code tmp (step T w e).
Proof.
  intros Hfresh Hsc. destruct e; simpl; try done.
  unfold scoped in *. destruct w as [s t c]. simpl in *.
  destruct t as [c0 t0|path scope|path scope|scope|t0 raised|raised]; simpl.
  - destruct Hsc as (-> & -> & Hpy). unfold ProgramsFileManager.temporary_enter.
    destruct (negb _); simpl; [done|]. by rewrite Hpy.
  - destruct Hsc as (-> & Hpy).
    destruct (PythonRunner.start_claim _) as [r [[]|err]]; simpl; done.
  - destruct Hsc as (-> & Hpy).
    destruct (PythonRunner.start_launch _ _) as [r [[]|err]]; simpl; [|done].
    by destruct T.
  - destruct Hsc as (-> & Hpy). by destruct (execution_is_running s).
  - destruct Hsc as (-> & Hpy). rewrite Hpy.
    unfold ProgramsFileManager.temporary_exit. simpl.
    rewrite delete_insert_eq, delete_id by done. by destruct d0.
  - done.
Qed.

Lemma scoped_run T d0 code tmp schedule : ∀ w,
  temps d0 !! tmp = None → scoped d0 code tmp w → scoped d0 code tmp (run T schedule w).
Proof.
  unfold run. induction schedule as [|e schedule IH]; intros w Hfresh Hsc; [done|].
  simpl. apply IH; [done|]. by apply scoped_step.
Qed.





(** With a [start] that returned once the body has begun, the block
    [with temporary_file] would be left while the body still runs: after
    the spawned thread's fourth step the temporary file is gone and the
    execution is still Running. *)
Lemma scope_closes_early_if_start_returns :
  let w3 := run OnceBegun [ThreadRuns; ThreadRuns; ThreadRuns]
                (execute_from_code "print(5)" "/tmp/tmp1.py" reconciled_state) in
  let w4 := step OnceBegun w3 ThreadRuns in
  (temps (python_manager (mgr w3)) !! "/tmp/tmp1.py" = Some "print(5)" ∧
   execution_is_running (mgr w3) = true) ∧
  temps (python_manager (mgr w4)) !! "/tmp/tmp1.py" = None ∧
  execution_is_running (mgr w4) = true ∧
  spawned w4 = Finished None.
Proof. vm_compute. repeat split; done. Qed.



(** * Further properties *)

(** ** Reading the outcome of a method *)

Lemma bind_ok {A B} (m : M A) (k : A → M B) s s' b :
  bind m k s = (s', Ok b) →
  ∃ s1 a, m s = (s1, Ok a) ∧ k a s1 = (s', Ok b).
Proof.
  unfold bind. destruct (m s) as [s1 [a|e]]; [eauto|]. intros; simplify_eq.
Qed.

Lemma on_database_ok f s s' u :
  on_database f s = (s', Ok u) →
  ∃ t, f (database s) = Ok t ∧ s' = with_database t s.
Proof.
  unfold on_database. destruct (f (database s)); intros; simplify_eq; eauto.
Qed.

Lemma on_python_ok f s s' u :
  on_python f s = (s', Ok u) →
  ∃ d, f (python_manager s) = Ok d ∧ s' = with_python d s.
Proof.
  unfold on_python. destruct (f (python_manager s)); intros; simplify_eq; eauto.
Qed.

Lemma on_blockly_ok f s s' u :
  on_blockly f s = (s', Ok u) →
  ∃ d, f (blockly_manager s) = Ok d ∧ s' = with_blockly d s.
Proof.
  unfold on_blockly. destruct (f (blockly_manager s)); intros; simplify_eq; eauto.
Qed.

Lemma store_insert_ok P now k n d b t t' :
  Program.insert_program P now k n d b t = Ok t' → t' = <[k := Row n d now b]> t.
Proof. unfold Program.insert_program. destruct (_ && _); intros; by simplify_eq. Qed.

Lemma store_update_ok P now k n d b t t' :
  Program.update_program P now k n d b t = Ok t' →
  t' = alter (Program.update_row now n d b) k t.
Proof. unfold Program.update_program. destruct (_ && _); intros; by simplify_eq. Qed.

Lemma store_delete_ok P k t t' :
  Program.delete_program P k t = Ok t' → t' = delete k t.
Proof. unfold Program.delete_program. destruct (_ && _); intros; by simplify_eq. Qed.

Lemma file_create_ok P k code d d' :
  ProgramsFileManager.create P k code d = Ok d' →
  d' = with_files (<[k := code]> (files d)) d.
Proof.
  unfold ProgramsFileManager.create.
  destruct (negb _); [done|]. destruct (_ && _); intros; by simplify_eq.
Qed.

Lemma file_edit_ok P k code d d' :
  ProgramsFileManager.edit P k code d = Ok d' →
  d' = with_files (<[k := code]> (files d)) d.
Proof.
  unfold ProgramsFileManager.edit.
  destruct (negb _); [done|]. destruct (_ && _); intros; by simplify_eq.
Qed.

Lemma file_remove_ok P k d d' :
  ProgramsFileManager.remove P k d = Ok d' →
  d' = with_files (delete k (files d)) d.
Proof.
  unfold ProgramsFileManager.remove. destruct (_ && _); intros; by simplify_eq.
Qed.

(** [get] reads: it returns the state it was given, and its outcome is a
    function of what the three stores hold under the id. *)
Lemma get_state k s : (get k s).1 = s.
Proof.
  unfold get, bind, ask, ret. simpl.
  destruct (Program.get_by_id k (database s)) as [dp|]; [|done]. simpl.
  destruct (ProgramsFileManager.read k (python_manager s)); [|done]. simpl.
  destruct (db_has_blockly dp); simpl; [|done].
  by destruct (ProgramsFileManager.read k (blockly_manager s)).
Qed.

Lemma get_result k s :
  (get k s).2 =
  match database s !! k with
  | None => Raise NotFound
  | Some r =>
      match files (python_manager s) !! k with
      | None => Raise NotFound
      | Some body =>
          if row_has_blockly r then
            match files (blockly_manager s) !! k with
            | None => Raise NotFound
            | Some visual => Ok (view k r body visual)
            end
          else Ok (view k r body "")
      end
  end.
Proof.
  unfold get, bind, ask, ret, Program.get_by_id, ProgramsFileManager.read. simpl.
  destruct (database s !! k) as [r|]; [|done]. simpl.
  destruct (files (python_manager s) !! k); [|done]. simpl.
  destruct (row_has_blockly r); simpl; [|done].
  by destruct (files (blockly_manager s) !! k).
Qed.

Lemma get_eq k s p : (get k s).2 = Ok p → get k s = (s, Ok p).
Proof.
  intros H. pose proof (get_state k s) as Hs.
  destruct (get k s) as [s1 r]. simpl in *. by subst.
Qed.

Lemma get_ext k s s' :
  database s' !! k = database s !! k →
  files (python_manager s') !! k = files (python_manager s) !! k →
  files (blockly_manager s') !! k = files (blockly_manager s) !! k →
  (get k s').2 = (get k s).2.
Proof. intros H1 H2 H3. by rewrite !get_result, H1, H2, H3. Qed.

(** X1: [get] never changes the state, and it returns a record exactly
    when the metadata store has a row for the id, the script store has
    its file and, if the row is flagged has_blockly, the visual store has
    its file too; the record is then the row merged with the script body
    and with the visual body, or with the empty string for a row that is
    not flagged (a visual file left in the store is then ignored).  In
    every other case [get] raises. *)
Theorem get_outcome k s :
  (get k s).1 = s ∧
  (∀ p, (get k s).2 = Ok p ↔
        ∃ r body visual,
          database s !! k = Some r ∧
          files (python_manager s) !! k = Some body ∧
          (if row_has_blockly r
           then files (blockly_manager s) !! k = Some visual
           else visual = "") ∧
          p = view k r body visual).
Proof.
  split; [apply get_state|]. intros p. rewrite get_result. split.
  - destruct (database s !! k) as [r|]; [|done].
    destruct (files (python_manager s) !! k) as [body|]; [|done].
    destruct (row_has_blockly r) eqn:Hb.
    + destruct (files (blockly_manager s) !! k) as [visual|] eqn:Hv; [|done].
      intros [= <-]. exists r, body, visual. by rewrite Hb.
    + intros [= <-]. exists r, body, "". by rewrite Hb.
  - intros (r & body & visual & -> & -> & Hv & ->).
    destruct (row_has_blockly r); [by rewrite Hv|by subst].
Qed.

(** ** What a mutation that returns has done *)

Lemma create_program_done P now k n d code visual s s' i :
  create_program P now k n d code visual s = (s', Ok i) →
  let hb := bool_decide (visual ≠ "") in
  i = k ∧
  database s' = <[k := Row n d now hb]> (database s) ∧
  python_manager s'
  = with_files (<[k := code]> (files (python_manager s))) (python_manager s) ∧
  blockly_manager s'
  = (if hb then with_files (<[k := visual]> (files (blockly_manager s))) (blockly_manager s)
     else blockly_manager s) ∧
  programs s' = <[k := view k (Row n d now hb) code visual]> (programs s) ∧
  python_runner s' = python_runner s ∧
  rosout s' = rosout s.
Proof.
  intros H hb. unfold create_program in H. fold hb in H.
  apply bind_ok in H as (s1 & [] & H1 & H).
  apply on_database_ok in H1 as (t & Ht%store_insert_ok & ->).
  apply bind_ok in H as (s2 & [] & H2 & H).
  apply on_python_ok in H2 as (py & Hpy%file_create_ok & ->).
  apply bind_ok in H as (s3 & [] & H3 & H).
  apply bind_ok in H as (s4 & p & H4 & H).
  apply bind_ok in H as (s5 & [] & H5 & H).
  unfold ret in H. injection H as <- <-.
  unfold programs_set in H5. injection H5 as <-.
  pose proof (get_state k s3) as Hs. rewrite H4 in Hs. simpl in Hs. subst s4.
  assert ((get k s3).2 = Ok p) as Hp by by rewrite H4.
  rewrite get_result in Hp.
  destruct hb eqn:Hhb.
  - apply on_blockly_ok in H3 as (bl & Hbl%file_create_ok & ->). subst t py bl.
    simpl in *. repeat (rewrite lookup_insert_eq in Hp; simpl in Hp).
    injection Hp as <-. done.
  - unfold ret in H3. injection H3 as <-. subst t py. simpl in *.
    rewrite !lookup_insert_eq in Hp. simpl in Hp. injection Hp as <-.
    apply bool_decide_eq_false in Hhb. apply dec_stable in Hhb. rewrite Hhb.
    done.
Qed.

Lemma update_program_done P now k n d code visual s s' u :
  update_program P now k n d code visual s = (s', Ok u) →
  let hb := bool_decide (visual ≠ "") in
  ∃ r old,
    database s !! k = Some r ∧ programs s !! k = Some old ∧
    database s' = <[k := Row n d now hb]> (database s) ∧
    python_manager s'
    = with_files (<[k := code]> (files (python_manager s))) (python_manager s) ∧
    blockly_manager s'
    = (if hb then with_files (<[k := visual]> (files (blockly_manager s))) (blockly_manager s)
       else blockly_manager s) ∧
    programs s' = <[k := view k (Row n d now hb) code visual]> (programs s) ∧
    python_runner s' = python_runner s ∧
    rosout s' = rosout s.
Proof.
  intros H hb. unfold update_program in H. fold hb in H.
  apply bind_ok in H as (s1 & [] & H1 & H).
  apply on_database_ok in H1 as (t & Ht%store_update_ok & ->).
  apply bind_ok in H as (s2 & [] & H2 & H).
  apply on_python_ok in H2 as (py & Hpy%file_edit_ok & ->).
  apply bind_ok in H as (s3 & [] & H3 & H).
  apply bind_ok in H as (s4 & old & H4 & H).
  apply bind_ok in H as (s5 & p & H5 & H).
  unfold programs_set in H. injection H as <- _.
  unfold programs_pop in H4.
  destruct (programs s3 !! k) as [old'|] eqn:Hold; [|discriminate].
  injection H4 as <- <-.
  pose proof (get_state k (with_programs (delete k (programs s3)) s3)) as Hs.
  rewrite H5 in Hs. simpl in Hs. subst s5.
  assert ((get k (with_programs (delete k (programs s3)) s3)).2 = Ok p) as Hp
    by by rewrite H5.
  clear H5. rewrite get_result in Hp. simpl in *.
  assert (database s3 = t ∧ python_manager s3 = py ∧ programs s3 = programs s ∧
          python_runner s3 = python_runner s ∧ rosout s3 = rosout s ∧
          blockly_manager s3
          = (if hb then with_files (<[k := visual]> (files (blockly_manager s)))
                                   (blockly_manager s)
             else blockly_manager s)) as (Hd3 & Hp3 & Hc3 & Hr3 & Ho3 & Hb3).
  { destruct hb.
    - apply on_blockly_ok in H3 as (bl & ->%file_edit_ok & ->). done.
    - unfold ret in H3. by injection H3 as <-. }
  rewrite Hd3, Hp3, Hb3 in Hp. rewrite Hc3 in Hold.
  rewrite Hd3, Hp3, Hc3, Hr3, Ho3, Hb3. clear H3 Hd3 Hp3 Hc3 Hr3 Ho3 Hb3.
  subst t py. simpl in Hp. rewrite lookup_alter_eq, lookup_insert_eq in Hp.
  destruct (database s !! k) as [r|] eqn:Hr; [|done]. simpl in Hp.
  exists r, old'. split; [done|]. split; [done|].
  assert (alter (Program.update_row now (Some n) (Some d) (Some hb)) k (database s)
          = <[k := Row n d now hb]> (database s)) as ->.
  { apply map_eq. intros j. rewrite lookup_alter, lookup_insert.
    case_decide; [subst; by rewrite Hr|done]. }
  rewrite insert_delete_eq. repeat split; try done. f_equal.
  destruct hb eqn:Hhb; simpl in Hp.
  - rewrite lookup_insert_eq in Hp. by injection Hp as <-.
  - injection Hp as <-.
    apply bool_decide_eq_false in Hhb. apply dec_stable in Hhb. by rewrite Hhb.
Qed.

Lemma delete_program_done P k s s' u :
  delete_program P k s = (s', Ok u) →
  ∃ old,
    programs s !! k = Some old ∧
    database s' = delete k (database s) ∧
    python_manager s'
    = with_files (delete k (files (python_manager s))) (python_manager s) ∧
    blockly_manager s'
    = (if has_blockly old
       then with_files (delete k (files (blockly_manager s))) (blockly_manager s)
       else blockly_manager s) ∧
    programs s' = delete k (programs s) ∧
    python_runner s' = python_runner s ∧
    rosout s' = rosout s.
Proof.
  intros H. unfold delete_program in H.
  apply bind_ok in H as (s1 & [] & H1 & H).
  apply on_database_ok in H1 as (t & Ht%store_delete_ok & ->).
  apply bind_ok in H as (s2 & [] & H2 & H).
  apply on_python_ok in H2 as (py & Hpy%file_remove_ok & ->).
  apply bind_ok in H as (s3 & old & H3 & H).
  unfold programs_pop in H3. simpl in H3.
  destruct (programs s !! k) as [old'|] eqn:Hold; simplify_eq.
  exists old. split; [done|].
  destruct (has_blockly old).
  - apply on_blockly_ok in H as (bl & Hbl%file_remove_ok & ->). by subst.
  - unfold ret in H. by simplify_eq.
Qed.

(** ** Round trips of the program handling methods *)

Lemma create_unknown P k code d :
  files d !! k = None → writable d = true →
  ProgramsFileManager.create P k code d = Ok (with_files (<[k := code]> (files d)) d).
Proof.
  intros H Hw. unfold ProgramsFileManager.create, ProgramsFileManager.exists_.
  rewrite Hw, H. simpl. by rewrite andb_false_r.
Qed.

Lemma create_program_returns P now s k n d code visual :
  database s !! k = None →
  files (python_manager s) !! k = None →
  writable (python_manager s) = true →
  (visual ≠ "" → files (blockly_manager s) !! k = None
                 ∧ writable (blockly_manager s) = true) →
  ∃ s', create_program P now k n d code visual s = (s', Ok k).
Proof.
  intros Hdb Hpy Hw Hvis. unfold create_program, bind, on_database, on_python.
  rewrite insert_unknown by done. simpl.
  rewrite create_unknown by done. simpl.
  case_bool_decide as Hv.
  - destruct (Hvis Hv) as [Hbl Hwb]. unfold on_blockly. simpl.
    rewrite create_unknown by done. simpl.
    pose proof (get_state k) as Hs. pose proof (get_result k) as Hr.
    match goal with |- context [get k ?s1] =>
      specialize (Hs s1); specialize (Hr s1); destruct (get k s1) as [s2 r] end.
    simpl in *. subst s2.
    repeat (rewrite lookup_insert_eq in Hr; simpl in Hr). subst r. eauto.
  - unfold ret at 1. simpl.
    pose proof (get_state k) as Hs. pose proof (get_result k) as Hr.
    match goal with |- context [get k ?s1] =>
      specialize (Hs s1); specialize (Hr s1); destruct (get k s1) as [s2 r] end.
    simpl in *. subst s2.
    repeat (rewrite lookup_insert_eq in Hr; simpl in Hr). subst r. eauto.
Qed.

(** X2: with a fresh id and writable stores, [create_program] returns the
    id, and right after it [get] returns the record made of the name,
    description, script body and visual body given (has_blockly telling
    whether the visual body is non-empty), the cache holds that same
    record under the id, and [exists] answers true. *)
Theorem create_round_trip P now s k n d code visual :
  database s !! k = None →
  files (python_manager s) !! k = None →
  writable (python_manager s) = true →
  (visual ≠ "" → files (blockly_manager s) !! k = None
                 ∧ writable (blockly_manager s) = true) →
  ∃ s', create_program P now k n d code visual s = (s', Ok k) ∧
    let p := mkProgramDict k n d now (bool_decide (visual ≠ "")) code visual in
    get k s' = (s', Ok p) ∧
    programs s' !! k = Some p ∧
    exists_ k s' = (s', Ok true).
Proof.
  intros Hdb Hpy Hw Hvis.
  destruct (create_program_returns P now s k n d code visual) as [s' Hrun]; try done.
  exists s'. split; [done|].
  destruct (create_program_done _ _ _ _ _ _ _ _ _ _ Hrun)
    as (_ & Hd & Hp & Hb & Hc & _).
  cbv zeta. split; [|split].
  - apply get_eq. rewrite get_result, Hd, Hp, Hb. simpl.
    rewrite !lookup_insert_eq. simpl.
    case_bool_decide as Hv; simpl; [by rewrite lookup_insert_eq|].
    by subst.
  - rewrite Hc. by rewrite lookup_insert_eq.
  - unfold exists_, ask, Program.exists_, ProgramsFileManager.exists_.
    rewrite Hd, Hp. simpl. rewrite !lookup_insert_eq.
    rewrite !bool_decide_eq_true_2 by eauto. done.
Qed.

(** X2 at a fresh id with a visual body. *)
Lemma create_round_trip_witness :
  ∃ s', create_program strict "2024-06-02" "id1" "n" "d" "print(1)" "<xml/>" reconciled_state
        = (s', Ok "id1") ∧
    let p := mkProgramDict "id1" "n" "d" "2024-06-02" (bool_decide ("<xml/>" ≠ ""))
                           "print(1)" "<xml/>" in
    get "id1" s' = (s', Ok p) ∧
    programs s' !! "id1" = Some p ∧
    exists_ "id1" s' = (s', Ok true).
Proof.
  apply (create_round_trip strict "2024-06-02" reconciled_state "id1" "n" "d"
           "print(1)" "<xml/>"); try reflexivity.
  intros _. split; reflexivity.
Defined.

Lemma edit_allowed P k code d :
  writable d = true →
  is_Some (files d !! k) ∨ edit_rejects_unknown P = false →
  ProgramsFileManager.edit P k code d = Ok (with_files (<[k := code]> (files d)) d).
Proof.
  intros Hw Hor. unfold ProgramsFileManager.edit, ProgramsFileManager.exists_.
  rewrite Hw. simpl. destruct Hor as [Hin| ->]; [|done].
  rewrite bool_decide_eq_true_2 by done. by rewrite andb_false_r.
Qed.

Lemma remove_allowed P k d :
  is_Some (files d !! k) ∨ remove_rejects_unknown P = false →
  ProgramsFileManager.remove P k d = Ok (with_files (delete k (files d)) d).
Proof.
  intros Hor. unfold ProgramsFileManager.remove, ProgramsFileManager.exists_.
  destruct Hor as [Hin| ->]; [|done].
  rewrite bool_decide_eq_true_2 by done. by rewrite andb_false_r.
Qed.

Lemma update_program_returns P now s k n d code visual r old :
  database s !! k = Some r →
  is_Some (files (python_manager s) !! k) →
  programs s !! k = Some old →
  writable (python_manager s) = true →
  (visual ≠ "" → writable (blockly_manager s) = true
                 ∧ (is_Some (files (blockly_manager s) !! k)
                    ∨ edit_rejects_unknown P = false)) →
  ∃ s', update_program P now k n d code visual s = (s', Ok tt).
Proof.
  intros Hdb Hpy Hc Hw Hvis. unfold update_program, bind, on_database, on_python.
  rewrite (update_known _ _ _ _ _ _ _ _ Hdb). simpl.
  rewrite edit_allowed by auto. simpl.
  assert (∀ s1, programs s1 !! k = Some old →
            database s1 !! k = Some (Row n d now (bool_decide (visual ≠ ""))) →
            is_Some (files (python_manager s1) !! k) →
            (bool_decide (visual ≠ "") = true → is_Some (files (blockly_manager s1) !! k)) →
            ∃ s', (let (s'0, r0) := programs_pop k s1 in
                   match r0 with
                   | Ok _ => let (s'1, r1) := get k s'0 in
                             match r1 with
                             | Ok a => programs_set k a s'1
                             | Raise e => (s'1, Raise e)
                             end
                   | Raise e => (s'0, Raise e)
                   end) = (s', Ok tt)) as Hrest.
  { intros s1 Hc1 Hd1 [b Hp1] Hb1. unfold programs_pop. rewrite Hc1.
    pose proof (get_state k (with_programs (delete k (programs s1)) s1)) as Hs.
    pose proof (get_result k (with_programs (delete k (programs s1)) s1)) as Hr.
    destruct (get k _) as [s2 r2]. simpl in *. subst s2.
    rewrite Hd1, Hp1 in Hr. simpl in Hr.
    destruct (bool_decide (visual ≠ "")).
    - destruct Hb1 as [v Hv]; [done|]. rewrite Hv in Hr. subst r2.
      unfold programs_set. eauto.
    - subst r2. unfold programs_set. eauto. }
  case_bool_decide as Hv.
  - destruct (Hvis Hv) as [Hwb Hor]. unfold on_blockly. simpl.
    rewrite edit_allowed by auto. simpl.
    apply Hrest; simpl; rewrite ?lookup_insert_eq; eauto.
  - unfold ret at 1. simpl.
    apply Hrest; simpl; rewrite ?lookup_insert_eq; eauto. done.
Qed.

(** X3: for a program that has a record, a script file and a cache entry,
    with writable stores (and, when a visual body is given, a visual
    store that accepts the edit), [update_program] returns, and right
    after it [get] returns the record made of the new name, description,
    script body and visual body, the cache holds that same record, and
    for every other id both [get] and the cache entry are as before. *)
Theorem update_round_trip P now s k n d code visual r old :
  database s !! k = Some r →
  is_Some (files (python_manager s) !! k) →
  programs s !! k = Some old →
  writable (python_manager s) = true →
  (visual ≠ "" → writable (blockly_manager s) = true
                 ∧ (is_Some (files (blockly_manager s) !! k)
                    ∨ edit_rejects_unknown P = false)) →
  ∃ s', update_program P now k n d code visual s = (s', Ok tt) ∧
    let p := mkProgramDict k n d now (bool_decide (visual ≠ "")) code visual in
    get k s' = (s', Ok p) ∧
    programs s' !! k = Some p ∧
    ∀ j, j ≠ k → (get j s').2 = (get j s).2 ∧ programs s' !! j = programs s !! j.
Proof.
  intros Hdb Hpy Hc Hw Hvis.
  destruct (update_program_returns P now s k n d code visual r old) as [s' Hrun];
    try done.
  exists s'. split; [done|].
  destruct (update_program_done _ _ _ _ _ _ _ _ _ _ Hrun)
    as (_ & _ & _ & _ & Hd & Hp & Hb & Hcache & _).
  cbv zeta. split; [|split].
  - apply get_eq. rewrite get_result, Hd, Hp, Hb. simpl.
    rewrite !lookup_insert_eq. simpl.
    case_bool_decide as Hv; simpl; [by rewrite lookup_insert_eq|by subst].
  - rewrite Hcache. by rewrite lookup_insert_eq.
  - intros j Hj. split.
    + apply get_ext; rewrite ?Hd, ?Hp, ?Hb; simpl;
        rewrite ?lookup_insert_ne by done; try done.
      destruct (bool_decide _); simpl; by rewrite ?lookup_insert_ne.
    + rewrite Hcache. by rewrite lookup_insert_ne.
Qed.

(** X3 at the program "p1" of [with_visual], after the constructor. *)
Lemma update_round_trip_witness :
  ∃ s', update_program strict "2024-06-02" "p1" "pick" "again" "print(4)" "<new/>"
          (init_cache with_visual) = (s', Ok tt) ∧
    let p := mkProgramDict "p1" "pick" "again" "2024-06-02" (bool_decide ("<new/>" ≠ ""))
                           "print(4)" "<new/>" in
    get "p1" s' = (s', Ok p) ∧
    programs s' !! "p1" = Some p ∧
    ∀ j, j ≠ "p1" → (get j s').2 = (get j (init_cache with_visual)).2
                    ∧ programs s' !! j = programs (init_cache with_visual) !! j.
Proof.
  apply (update_round_trip strict "2024-06-02" (init_cache with_visual) "p1" "pick"
           "again" "print(4)" "<new/>"
           (Row "pick" "pick and place" "2024-01-01" true)
           (view "p1" (Row "pick" "pick and place" "2024-01-01" true) "print(1)" "<xml/>")).
  - reflexivity.
  - by eexists.
  - reflexivity.
  - reflexivity.
  - intros _. split; [reflexivity|]. left. by eexists.
Defined.

Lemma delete_program_returns P s k r old :
  database s !! k = Some r →
  is_Some (files (python_manager s) !! k) →
  programs s !! k = Some old →
  (has_blockly old = true → is_Some (files (blockly_manager s) !! k)
                            ∨ remove_rejects_unknown P = false) →
  ∃ s', delete_program P k s = (s', Ok tt).
Proof.
  intros Hdb Hpy Hc Hvis. unfold delete_program, bind, on_database, on_python.
  rewrite (delete_known _ _ _ _ Hdb). simpl.
  rewrite remove_allowed by auto. simpl.
  unfold programs_pop. simpl. rewrite Hc.
  destruct (has_blockly old); [|unfold ret; eauto].
  unfold on_blockly. simpl. rewrite remove_allowed by auto. eauto.
Qed.

(** X4: for a program that has a record, a script file and a cache entry
    (and whose visual file, if the cached record is flagged has_blockly,
    the visual store can remove), [delete_program] returns and has
    removed the record, the script file and the cache entry; the visual
    file is removed exactly when the cached record is flagged; [exists]
    then answers false; nothing stored under another id is touched. *)
Theorem delete_known_program P s k r old :
  database s !! k = Some r →
  is_Some (files (python_manager s) !! k) →
  programs s !! k = Some old →
  (has_blockly old = true → is_Some (files (blockly_manager s) !! k)
                            ∨ remove_rejects_unknown P = false) →
  ∃ s', delete_program P k s = (s', Ok tt) ∧
    database s' !! k = None ∧
    files (python_manager s') !! k = None ∧
    programs s' !! k = None ∧
    files (blockly_manager s') !! k
    = (if has_blockly old then None else files (blockly_manager s) !! k) ∧
    exists_ k s' = (s', Ok false) ∧
    ∀ j, j ≠ k →
      database s' !! j = database s !! j ∧
      files (python_manager s') !! j = files (python_manager s) !! j ∧
      files (blockly_manager s') !! j = files (blockly_manager s) !! j ∧
      programs s' !! j = programs s !! j.
Proof.
  intros Hdb Hpy Hc Hvis.
  destruct (delete_program_returns P s k r old) as [s' Hrun]; try done.
  exists s'. split; [done|].
  destruct (delete_program_done _ _ _ _ _ Hrun)
    as (old' & Hc' & Hd & Hp & Hb & Hcache & _).
  rewrite Hc in Hc'. injection Hc' as <-.
  rewrite Hd, Hp, Hb, Hcache. simpl.
  repeat split; rewrite ?lookup_delete_eq; try done.
  - destruct (has_blockly old); simpl; by rewrite ?lookup_delete_eq.
  - unfold exists_, ask, Program.exists_. rewrite Hd, lookup_delete_eq.
    rewrite bool_decide_eq_false_2 by (by intros [? ?]). done.
  - by rewrite lookup_delete_ne.
  - by rewrite lookup_delete_ne.
  - destruct (has_blockly old); simpl; by rewrite ?lookup_delete_ne.
  - by rewrite lookup_delete_ne.
Qed.

(** X4 at the program "p1" of [with_visual], after the constructor. *)
Lemma delete_known_program_witness :
  ∃ s', delete_program strict "p1" (init_cache with_visual) = (s', Ok tt) ∧
    database s' !! "p1" = None ∧
    files (python_manager s') !! "p1" = None ∧
    programs s' !! "p1" = None ∧
    files (blockly_manager s') !! "p1"
    = (if has_blockly (view "p1" (Row "pick" "pick and place" "2024-01-01" true)
                            "print(1)" "<xml/>")
       then None else files (blockly_manager (init_cache with_visual)) !! "p1") ∧
    exists_ "p1" s' = (s', Ok false) ∧
    ∀ j, j ≠ "p1" →
      database s' !! j = database (init_cache with_visual) !! j ∧
      files (python_manager s') !! j = files (python_manager (init_cache with_visual)) !! j ∧
      files (blockly_manager s') !! j = files (blockly_manager (init_cache with_visual)) !! j ∧
      programs s' !! j = programs (init_cache with_visual) !! j.
Proof.
  apply (delete_known_program strict (init_cache with_visual) "p1"
           (Row "pick" "pick and place" "2024-01-01" true)
           (view "p1" (Row "pick" "pick and place" "2024-01-01" true) "print(1)" "<xml/>")).
  - reflexivity.
  - by eexists.
  - reflexivity.
  - intros _. left. by eexists.
Defined.

(** X5: for an id that the cache does not hold, [delete_program] never
    returns normally and leaves the cache and the visual store as they
    were; but the cache is consulted only after the metadata record and
    the script file have been deleted, so with stores that accept these
    calls the call raises KeyError with record and script file gone. *)
Theorem delete_uncached_raises P s k :
  programs s !! k = None →
  let out := delete_program P k s in
  (∃ e, out.2 = Raise e) ∧
  programs out.1 = programs s ∧
  blockly_manager out.1 = blockly_manager s ∧
  (delete_rejects_unknown P = false → remove_rejects_unknown P = false →
   out.2 = Raise KeyError ∧
   database out.1 !! k = None ∧ files (python_manager out.1) !! k = None).
Proof.
  intros Hc. unfold delete_program, bind, on_database, on_python.
  unfold Program.delete_program, ProgramsFileManager.remove.
  destruct (delete_rejects_unknown P && _) eqn:Hd; simpl.
  { split; [eauto|]. split; [done|]. split; [done|].
    intros Hf. by rewrite Hf in Hd. }
  destruct (remove_rejects_unknown P && _) eqn:Hr; simpl.
  { split; [eauto|]. split; [done|]. split; [done|].
    intros _ Hf. by rewrite Hf in Hr. }
  unfold programs_pop. simpl. rewrite Hc. simpl.
  split; [eauto|]. split; [done|]. split; [done|].
  intros _ _. by rewrite !lookup_delete_eq.
Qed.

(** X5 at a record of [drifted], whose cache is empty. *)
Lemma delete_uncached_raises_witness :
  let out := delete_program lenient "p1" drifted in
  (∃ e, out.2 = Raise e) ∧
  programs out.1 = programs drifted ∧
  blockly_manager out.1 = blockly_manager drifted ∧
  (delete_rejects_unknown lenient = false → remove_rejects_unknown lenient = false →
   out.2 = Raise KeyError ∧
   database out.1 !! "p1" = None ∧ files (python_manager out.1) !! "p1" = None).
Proof.
  apply (delete_uncached_raises lenient drifted "p1"). reflexivity.
Defined.

Lemma manager_eq s s' :
  database s' = database s →
  python_manager s' = python_manager s →
  blockly_manager s' = blockly_manager s →
  programs s' = programs s →
  python_runner s' = python_runner s →
  rosout s' = rosout s →
  s' = s.
Proof. destruct s, s'. simpl. by intros -> -> -> -> -> ->. Qed.

Lemma with_files_same f d : f = files d → with_files f d = d.
Proof. intros ->. by destruct d. Qed.

(** X6: creating a program under a fresh id and deleting it again leaves
    the manager exactly as it was: metadata store, both file stores,
    cache, runner and log. *)
Theorem create_then_delete P now s k n d code visual :
  database s !! k = None →
  files (python_manager s) !! k = None →
  programs s !! k = None →
  writable (python_manager s) = true →
  (visual ≠ "" → files (blockly_manager s) !! k = None
                 ∧ writable (blockly_manager s) = true) →
  ∃ s', create_program P now k n d code visual s = (s', Ok k) ∧
        delete_program P k s' = (s, Ok tt).
Proof.
  intros Hdb Hpy Hc Hw Hvis.
  destruct (create_program_returns P now s k n d code visual) as [s' Hrun]; try done.
  exists s'. split; [done|].
  destruct (create_program_done _ _ _ _ _ _ _ _ _ _ Hrun)
    as (_ & Hd & Hp & Hb & Hcache & Hr & Ho).
  destruct (delete_program_returns P s' k
              (Row n d now (bool_decide (visual ≠ "")))
              (view k (Row n d now (bool_decide (visual ≠ ""))) code visual))
    as [s2 Hdel].
  { rewrite Hd. apply lookup_insert_eq. }
  { rewrite Hp. simpl. rewrite lookup_insert_eq. eauto. }
  { rewrite Hcache. apply lookup_insert_eq. }
  { simpl. intros Hv. left. rewrite Hb, Hv. simpl. rewrite lookup_insert_eq. eauto. }
  rewrite Hdel. f_equal.
  destruct (delete_program_done _ _ _ _ _ Hdel)
    as (old & Hold & Hd2 & Hp2 & Hb2 & Hc2 & Hr2 & Ho2).
  rewrite Hcache, lookup_insert_eq in Hold. injection Hold as <-.
  apply manager_eq.
  - rewrite Hd2, Hd. by rewrite delete_insert_eq, delete_id.
  - rewrite Hp2, Hp. simpl. rewrite delete_insert_eq, delete_id by done.
    destruct (python_manager s). done.
  - rewrite Hb2, Hb. simpl. case_bool_decide as Hv; [|done].
    destruct (Hvis Hv) as [Hbl _]. simpl.
    rewrite delete_insert_eq, delete_id by done. by destruct (blockly_manager s).
  - rewrite Hc2, Hcache. by rewrite delete_insert_eq, delete_id.
  - congruence.
  - congruence.
Qed.

(** X6 at a fresh id with a visual body. *)
Lemma create_then_delete_witness :
  ∃ s', create_program strict "2024-06-02" "id1" "n" "d" "print(1)" "<xml/>"
          reconciled_state = (s', Ok "id1") ∧
        delete_program strict "id1" s' = (reconciled_state, Ok tt).
Proof.
  apply (create_then_delete strict "2024-06-02" reconciled_state "id1" "n" "d"
           "print(1)" "<xml/>"); try reflexivity.
  intros _. split; reflexivity.
Defined.

(** ** The cache *)

Lemma get_written k n d now code visual s s' :
  let hb := bool_decide (visual ≠ "") in
  database s' = <[k := Row n d now hb]> (database s) →
  python_manager s'
  = with_files (<[k := code]> (files (python_manager s))) (python_manager s) →
  blockly_manager s'
  = (if hb then with_files (<[k := visual]> (files (blockly_manager s))) (blockly_manager s)
     else blockly_manager s) →
  (get k s').2 = Ok (view k (Row n d now hb) code visual) ∧
  ∀ j, j ≠ k → (get j s').2 = (get j s).2.
Proof.
  intros hb Hd Hp Hb. split.
  - rewrite get_result, Hd, Hp, Hb. simpl. rewrite !lookup_insert_eq. simpl.
    subst hb. case_bool_decide as Hv; simpl; [by rewrite lookup_insert_eq|by subst].
  - intros j Hj. apply get_ext; rewrite ?Hd, ?Hp, ?Hb; simpl;
      rewrite ?lookup_insert_ne by done; try done.
    destruct hb; simpl; by rewrite ?lookup_insert_ne.
Qed.

(** X7: if every cached record is what [get] returns for its id, this is
    still so after every [create_program], [update_program] and
    [delete_program] that returns normally. *)
Theorem cache_stays_coherent P now s :
  coherent s →
  (∀ k n d code visual s' i,
     create_program P now k n d code visual s = (s', Ok i) → coherent s') ∧
  (∀ k n d code visual s' u,
     update_program P now k n d code visual s = (s', Ok u) → coherent s') ∧
  (∀ k s' u, delete_program P k s = (s', Ok u) → coherent s').
Proof.
  intros Hcoh. repeat split.
  - intros k n d code visual s' i Hrun.
    destruct (create_program_done _ _ _ _ _ _ _ _ _ _ Hrun)
      as (_ & Hd & Hp & Hb & Hc & _).
    destruct (get_written k n d now code visual s s' Hd Hp Hb) as [Hk Hother].
    intros j p Hj. rewrite Hc in Hj.
    destruct (decide (j = k)) as [->|Hne].
    + rewrite lookup_insert_eq in Hj. by injection Hj as <-.
    + rewrite lookup_insert_ne in Hj by done. rewrite Hother by done. by apply Hcoh.
  - intros k n d code visual s' u Hrun.
    destruct (update_program_done _ _ _ _ _ _ _ _ _ _ Hrun)
      as (_ & _ & _ & _ & Hd & Hp & Hb & Hc & _).
    destruct (get_written k n d now code visual s s' Hd Hp Hb) as [Hk Hother].
    intros j p Hj. rewrite Hc in Hj.
    destruct (decide (j = k)) as [->|Hne].
    + rewrite lookup_insert_eq in Hj. by injection Hj as <-.
    + rewrite lookup_insert_ne in Hj by done. rewrite Hother by done. by apply Hcoh.
  - intros k s' u Hrun.
    destruct (delete_program_done _ _ _ _ _ Hrun)
      as (old & _ & Hd & Hp & Hb & Hc & _).
    intros j p Hj. rewrite Hc in Hj.
    destruct (decide (j = k)) as [->|Hne].
    + by rewrite lookup_delete_eq in Hj.
    + rewrite lookup_delete_ne in Hj by done.
      rewrite <- (Hcoh j p Hj). apply get_ext; rewrite ?Hd, ?Hp, ?Hb; simpl;
        rewrite ?lookup_delete_ne by done; try done.
      destruct (has_blockly old); simpl; by rewrite ?lookup_delete_ne.
Qed.

(** X7 at the state the constructor makes of [with_visual]. *)
Lemma cache_stays_coherent_witness :
  (∀ k n d code visual s' i,
     create_program strict "2024-06-02" k n d code visual (init_cache with_visual)
     = (s', Ok i) → coherent s') ∧
  (∀ k n d code visual s' u,
     update_program strict "2024-06-02" k n d code visual (init_cache with_visual)
     = (s', Ok u) → coherent s') ∧
  (∀ k s' u, delete_program strict k (init_cache with_visual) = (s', Ok u) → coherent s').
Proof.
  apply (cache_stays_coherent strict "2024-06-02" (init_cache with_visual)).
  intros k p Hk.
  assert (programs (init_cache with_visual)
          = {[ "p1" := view "p1" (Row "pick" "pick and place" "2024-01-01" true)
                            "print(1)" "<xml/>" ]}) as Hcache by by vm_compute.
  rewrite Hcache in Hk. apply lookup_singleton_Some in Hk as [<- <-].
  by vm_compute.
Defined.

Lemma cache_skip (ps : list ProgramDict) : ∀ (c : gmap string ProgramDict) k,
  k ∉ id <$> ps → foldl (λ c p, <[id p := p]> c) c ps !! k = c !! k.
Proof.
  induction ps as [|q ps IH]; intros c k Hk; [done|].
  rewrite fmap_cons in Hk. apply not_elem_of_cons in Hk as [Hne Hk].
  simpl. rewrite IH by done. by rewrite lookup_insert_ne.
Qed.

Lemma cache_hit (ps : list ProgramDict) : ∀ (c : gmap string ProgramDict) p,
  NoDup (id <$> ps) → p ∈ ps →
  foldl (λ c p, <[id p := p]> c) c ps !! id p = Some p.
Proof.
  induction ps as [|q ps IH]; intros c p Hnd Hp.
  - by apply elem_of_nil in Hp.
  - rewrite fmap_cons in Hnd. apply NoDup_cons in Hnd as [Hq Hnd].
    simpl. apply elem_of_cons in Hp as [->|Hp].
    + rewrite cache_skip by done. apply lookup_insert_eq.
    + by apply IH.
Qed.

Lemma get_id k s p : (get k s).2 = Ok p → id p = k.
Proof.
  intros H. apply get_outcome in H as (r & body & visual & _ & _ & _ & ->). done.
Qed.

Lemma get_all_returns s :
  I1 s → I2 s →
  ∃ ps, get_all s = (s, Ok ps) ∧
        id <$> ps = db_id <$> Program.get_all (database s) ∧
        ∀ p, p ∈ ps → (get (id p) s).2 = Ok p.
Proof.
  intros H1 H2. unfold get_all, bind, ask. simpl.
  assert (∀ d, d ∈ Program.get_all (database s) → ∃ p, (get (db_id d) s).2 = Ok p)
    as Hall.
  { intros d Hd%get_all_lookup. rewrite get_result, Hd.
    destruct (H1 (db_id d)) as [body ->]; [eauto|].
    destruct (row_has_blockly (row_of d)) eqn:Hb; [|eauto].
    destruct (H2 _ _ Hd Hb) as [visual ->]. eauto. }
  induction (Program.get_all (database s)) as [|d l IH].
  - exists []. split; [done|]. split; [done|].
    intros p Hp. by apply elem_of_nil in Hp.
  - destruct (Hall d) as [p Hp]; [left|].
    destruct IH as (ps & Hrun & Hids & Hget).
    { intros d' Hd'. apply Hall. by right. }
    exists (p :: ps). simpl. unfold bind at 1. rewrite (get_eq _ _ _ Hp).
    unfold bind at 1. rewrite Hrun. split; [done|]. split.
    + change (id p :: (id <$> ps) = db_id d :: (db_id <$> l)).
      rewrite Hids. f_equal. by apply get_id in Hp.
    + intros q [->|Hq]%elem_of_cons; [|by apply Hget].
      by rewrite (get_id _ _ _ Hp).
Qed.

(** X8: the constructor never raises, whatever the stores hold: it
    reconciles them (I1, I2 and I3 hold afterwards), leaves the file
    stores as they are, creates a fresh runner, and fills the cache with
    exactly one entry per record of the reconciled table, each the
    record [get] returns for its id. *)
Theorem init_builds_cache P now s :
  ∃ s', init P now s = (s', Ok tt) ∧
    I1 s' ∧ I2 s' ∧ I3 s' ∧
    coherent s' ∧
    (∀ k, is_Some (programs s' !! k) ↔ is_Some (database s' !! k)) ∧
    python_runner s' = PythonRunner.fresh ∧
    python_manager s' = python_manager s ∧
    blockly_manager s' = blockly_manager s.
Proof.
  pose proof (sync_invariants P now s) as Hinv.
  destruct (sync_run P now s) as (s1 & Hrun & (Hpy & Hbl & _ & _) & _).
  rewrite Hrun in Hinv. simpl in Hinv. destruct Hinv as (H1 & H2 & H3).
  destruct (get_all_returns s1 H1 H2) as (ps & Hall & Hids & Hget).
  set (cache := foldl (λ c p, <[id p := p]> c) (∅ : gmap string ProgramDict) ps).
  assert (∀ q, q ∈ ps → cache !! id q = Some q) as Hhit.
  { intros q Hq. apply cache_hit; [|done]. rewrite Hids. apply get_all_NoDup. }
  assert (∀ k, k ∉ id <$> ps → cache !! k = None) as Hskip.
  { intros k Hk. unfold cache. rewrite cache_skip by done. apply lookup_empty. }
  exists (with_runner PythonRunner.fresh (with_programs cache s1)). split.
  { unfold init, bind. rewrite Hrun, Hall. reflexivity. }
  clearbody cache. simpl. repeat split; try done.
  - intros k p Hk. simpl in Hk.
    destruct (decide (k ∈ id <$> ps)) as [Hin|Hout].
    + apply list_elem_of_fmap in Hin as (q & -> & Hq).
      rewrite (Hhit q Hq) in Hk. injection Hk as <-.
      rewrite <- (Hget q Hq). by apply get_ext.
    + by rewrite (Hskip k Hout) in Hk.
  - intros [p Hk].
    destruct (decide (k ∈ id <$> ps)) as [Hin|Hout].
    + rewrite Hids in Hin. by apply elem_of_get_all_ids in Hin.
    + by rewrite (Hskip k Hout) in Hk.
  - intros Hk%elem_of_get_all_ids. rewrite <- Hids in Hk.
    apply list_elem_of_fmap in Hk as (q & -> & Hq). rewrite (Hhit q Hq). eauto.
Qed.

(** ** More on the reconciliation pass *)

(** X9: the reconciliation pass leaves a sound record alone: a record
    whose script file exists and whose has_blockly flag, if set, is
    backed by a visual file is found unchanged after the pass (it is not
    even restamped), and the pass writes neither file store, nor the
    cache, nor the runner. *)
Theorem reconciliation_keeps_sound_records P now s k r :
  database s !! k = Some r →
  is_Some (files (python_manager s) !! k) →
  (row_has_blockly r = true → is_Some (files (blockly_manager s) !! k)) →
  ∃ s', sync_db_with_system P now s = (s', Ok tt) ∧
    database s' !! k = Some r ∧
    python_manager s' = python_manager s ∧
    blockly_manager s' = blockly_manager s ∧
    programs s' = programs s ∧
    python_runner s' = python_runner s.
Proof.
  intros Hk Hpy Hbl.
  destruct (sync_run P now s) as (s' & Hrun & Hsame & Hlook).
  exists s'. split; [done|]. split; [|exact Hsame].
  rewrite Hlook, Hk. unfold reconciled.
  rewrite bool_decide_eq_true_2 by by apply elem_of_get_all_names.
  destruct (row_has_blockly r); [|done].
  rewrite bool_decide_eq_true_2; [done|]. by apply elem_of_get_all_names, Hbl.
Qed.

(** X9 at the record "p1" of [reconciled_state]. *)
Lemma reconciliation_keeps_sound_records_witness :
  ∃ s', sync_db_with_system strict "2025-01-01" reconciled_state = (s', Ok tt) ∧
    database s' !! "p1" = Some (Row "pick" "pick and place" "2024-06-01" false) ∧
    python_manager s' = python_manager reconciled_state ∧
    blockly_manager s' = blockly_manager reconciled_state ∧
    programs s' = programs reconciled_state ∧
    python_runner s' = python_runner reconciled_state.
Proof.
  apply (reconciliation_keeps_sound_records strict "2025-01-01" reconciled_state "p1"
           (Row "pick" "pick and place" "2024-06-01" false)).
  - reflexivity.
  - by eexists.
  - discriminate.
Defined.

Lemma for_each_log {A} (body : A → M unit) (w : A → list warning) l :
  (∀ x s s', body x s = (s', Ok tt) → rosout s' = (rosout s ++ w x)%list) →
  ∀ s s', for_each l body s = (s', Ok tt) → rosout s' = (rosout s ++ (l ≫= w))%list.
Proof.
  intros Hbody. induction l as [|x l IH]; intros s s' Hrun.
  - simpl in Hrun. unfold ret in Hrun. injection Hrun as <-.
    by rewrite app_nil_r.
  - simpl in Hrun. apply bind_ok in Hrun as (s1 & [] & Hx & Hrun).
    rewrite (IH _ _ Hrun), (Hbody _ _ _ Hx). simpl. by rewrite app_assoc.
Qed.

Lemma record_pass_log P now py bl d s s' :
  record_pass P now py bl d s = (s', Ok tt) →
  rosout s' = (rosout s ++ record_warning py bl d)%list.
Proof.
  unfold record_pass, record_warning.
  destruct (negb _).
  - intros (s1 & [] & Hlog & (t & _ & ->)%on_database_ok)%bind_ok.
    unfold logwarn in Hlog. by injection Hlog as <-.
  - destruct (_ && _).
    + intros (s1 & [] & Hlog & (t & _ & ->)%on_database_ok)%bind_ok.
      unfold logwarn in Hlog. by injection Hlog as <-.
    + unfold ret. intros [= <-]. by rewrite app_nil_r.
Qed.

Lemma file_pass_log P now bl ids p s s' :
  file_pass P now bl ids p s = (s', Ok tt) →
  rosout s' = (rosout s ++ file_warning ids p)%list.
Proof.
  unfold file_pass, file_warning.
  destruct (negb _).
  - intros (s1 & [] & Hlog & (t & _ & ->)%on_database_ok)%bind_ok.
    unfold logwarn in Hlog. by injection Hlog as <-.
  - unfold ret. intros [= <-]. by rewrite app_nil_r.
Qed.

(** X10: the reconciliation pass only appends to the log, and the
    warnings it appends are exactly those of the repairs that are due:
    a removal for every record without script file, a flag repair for
    every flagged record with script file and without visual file, an
    adoption for every script file without record. *)
Theorem reconciliation_logs_each_repair P now s :
  ∃ new, rosout (sync_db_with_system P now s).1 = (rosout s ++ new)%list ∧
         ∀ w, w ∈ new ↔ repair_due s w.
Proof.
  destruct (sync_run P now s) as (s' & Hrun & _ & _). rewrite Hrun. simpl.
  rewrite sync_unfold in Hrun. cbv zeta in Hrun.
  apply bind_ok in Hrun as (s1 & [] & Hrun1 & Hrun2).
  apply (for_each_log _ _ _ (record_pass_log P now _ _)) in Hrun1.
  apply (for_each_log _ _ _ (file_pass_log P now _ _)) in Hrun2.
  eexists. split.
  { rewrite Hrun2, Hrun1, <- app_assoc. reflexivity. }
  intros w. rewrite elem_of_app, !list_elem_of_bind. split.
  - intros [(d & Hw & Hd)|(p & Hw & Hp)].
    + apply get_all_lookup in Hd. unfold record_warning in Hw.
      case_bool_decide as Hin; simpl in Hw.
      * destruct (db_has_blockly d) eqn:Hb; simpl in Hw;
          [|by apply elem_of_nil in Hw].
        case_bool_decide as Hv; simpl in Hw; [by apply elem_of_nil in Hw|].
        apply list_elem_of_singleton in Hw as ->. simpl.
        exists (row_of d). split; [done|]. split; [done|].
        split; [by apply elem_of_get_all_names|].
        apply eq_None_not_Some. by rewrite <- elem_of_get_all_names.
      * apply list_elem_of_singleton in Hw as ->. simpl. split; [eauto|].
        apply eq_None_not_Some. by rewrite <- elem_of_get_all_names.
    + unfold file_warning in Hw.
      case_bool_decide as Hin; simpl in Hw; [by apply elem_of_nil in Hw|].
      apply list_elem_of_singleton in Hw as ->. simpl. split.
      * apply eq_None_not_Some. by rewrite <- elem_of_get_all_ids.
      * by apply elem_of_get_all_names.
  - destruct w as [k|k|k]; simpl.
    + intros [[r Hr] Hnone]. left. exists (to_dict (k, r)). split.
      * unfold record_warning. simpl.
        rewrite bool_decide_eq_false_2; [simpl; by left|].
        rewrite elem_of_get_all_names, Hnone. by intros [? ?].
      * unfold Program.get_all. apply list_elem_of_fmap_2.
        by apply elem_of_map_to_list.
    + intros (r & Hr & Hb & Hpy & Hnone). left. exists (to_dict (k, r)). split.
      * unfold record_warning. simpl.
        rewrite bool_decide_eq_true_2 by by apply elem_of_get_all_names.
        simpl. rewrite Hb. rewrite bool_decide_eq_false_2; [simpl; by left|].
        rewrite elem_of_get_all_names, Hnone. by intros [? ?].
      * unfold Program.get_all. apply list_elem_of_fmap_2.
        by apply elem_of_map_to_list.
    + intros [Hnone Hpy]. right. exists k. split.
      * unfold file_warning. rewrite bool_decide_eq_false_2; [simpl; by left|].
        rewrite elem_of_get_all_ids, Hnone. by intros [? ?].
      * by apply elem_of_get_all_names.
Qed.

(** ** More on executions *)

Lemma start_claim_leaves_idle r :
  run_phase r ≠ Idle → run_phase (PythonRunner.start_claim r).1 ≠ Idle.
Proof.
  unfold PythonRunner.start_claim. by destruct (run_phase r) eqn:Hr; simpl; rewrite ?Hr.
Qed.

Lemma start_launch_leaves_idle launches r :
  run_phase r ≠ Idle → run_phase (PythonRunner.start_launch launches r).1 ≠ Idle.
Proof.
  unfold PythonRunner.start_launch.
  by destruct (run_phase r) eqn:Hr; destruct launches; simpl; rewrite ?Hr.
Qed.

Lemma start_launch_raises launches r r' e :
  PythonRunner.start_launch launches r = (r', Raise e) → e = LaunchFailure.
Proof.
  unfold PythonRunner.start_launch.
  destruct (run_phase r); destruct launches; simpl; intros; by simplify_eq.
Qed.

Lemma called_start_after scope raised :
  called_start (after_start scope raised) = from_start raised.
Proof. by destruct scope. Qed.

Lemma thread_step_keeps_called T s t :
  called_start t = true → called_start (thread_step T s t).2 = true.
Proof.
  destruct t as [code tmp|path scope|path scope|scope|tmp raised|raised]; simpl;
    try done; intros _.
  - destruct (PythonRunner.start_launch _ _) as [r [[]|err]] eqn:Hl; simpl.
    + destruct T; [by rewrite called_start_after|done].
    + rewrite called_start_after. by apply start_launch_raises in Hl as ->.
  - destruct (execution_is_running s); simpl; [done|]. by rewrite called_start_after.
Qed.

Lemma session_keeps_leaving_idle T e w :
  run_phase (python_runner (mgr w)) ≠ Idle →
  run_phase (python_runner (mgr (step T w e))) ≠ Idle.
Proof.
  intros H. destruct e; simpl; try done.
  - destruct (spawned w) as [code tmp|path scope|path scope|scope|tmp raised|raised];
      simpl; try done.
    + by destruct (ProgramsFileManager.temporary_enter _ _ _).
    + pose proof (start_claim_leaves_idle _ H) as Hc.
      by destruct (PythonRunner.start_claim _) as [r [[]|err]].
    + pose proof (start_launch_leaves_idle
                    (has_file_at path (python_manager (mgr w))) _ H) as Hc.
      by destruct (PythonRunner.start_launch _ _) as [r [[]|err]].
    + by destruct (execution_is_running _).
  - unfold PythonRunner.emits.
    destruct (run_phase (python_runner (mgr w))) eqn:Hr; simpl; by rewrite ?Hr.
  - unfold PythonRunner.exits.
    destruct (run_phase (python_runner (mgr w))) eqn:Hr; simpl; by rewrite ?Hr.
  - unfold stop_execution, PythonRunner.stop. simpl.
    destruct (run_phase (python_runner (mgr w))) eqn:Hr; simpl; by rewrite ?Hr.
Qed.

Lemma handshake_step T w e : handshake w → handshake (step T w e).
Proof.
  intros [[Hidle Hw]|(Hbusy & Hpast & Hcall)].
  - destruct e; simpl.
    + destruct (spawned w) as [code tmp|path scope|path scope|scope|tmp raised|raised];
        simpl.
      * left. by destruct (ProgramsFileManager.temporary_enter _ _ _).
      * right. unfold PythonRunner.start_claim. rewrite Hidle. simpl.
        rewrite Hw. repeat split; [done|by left].
      * left. unfold PythonRunner.start_launch. rewrite Hidle. by simpl.
      * left. by destruct (execution_is_running _).
      * by left.
      * by left.
    + left. split; [done|]. rewrite Hw. simpl.
      unfold execution_is_running, PythonRunner.is_running, PythonRunner.exit_status.
      by rewrite Hidle.
    + left. unfold PythonRunner.emits. by rewrite Hidle.
    + left. unfold PythonRunner.exits. by rewrite Hidle.
    + left. unfold stop_execution, PythonRunner.stop. simpl. by rewrite Hidle.
  - right. split; [by apply session_keeps_leaving_idle|].
    destruct e; simpl; try done.
    + split; [|done]. by apply thread_step_keeps_called.
    + split; [done|]. destruct Hcall as [-> | ->]; [|by right]. simpl.
      destruct (_ && _); [by left|by right].
Qed.

Lemma handshake_run T schedule : ∀ w, handshake w → handshake (run T schedule w).
Proof.
  unfold run. induction schedule as [|e schedule IH]; intros w Hinv; [exact Hinv|].
  simpl. apply IH. by apply handshake_step.
Qed.

(** X11: on a runner that has never run, [__execute] keeps its promise
    along every schedule, whether [start] returns once the body has
    begun or once it has ended: as long as the caller has not returned
    it is in the polling loop, and when it has returned (normally: the
    call never raises) the spawned thread has made its call of [start],
    being inside the call or past it, and the runner has left the idle
    state: it is starting, running or terminated. *)
Theorem first_execution_handshake T fun_ s schedule :
  run_phase (python_runner s) = Idle →
  let w := run T schedule (execute fun_ s) in
  caller w = Waiting ∨
  (caller w = Done (Ok tt) ∧
   run_phase (python_runner (mgr w)) ≠ Idle ∧
   called_start (spawned w) = true).
Proof.
  intros Hidle w.
  destruct (handshake_run T schedule (execute fun_ s)) as [[_ ?]|(? & ? & [?|?])]; auto.
  by left.
Qed.

(** X11 at a first [execute_from_id] on [reconciled_state], the caller
    returning while the thread is still inside [start]. *)
Lemma first_execution_handshake_witness :
  let w := run OnceEnded [CallerPolls; ThreadRuns; CallerPolls; ThreadRuns; BodyExits 0]
               (execute (CallStart "/programs/python3/p1.py" None) reconciled_state) in
  caller w = Waiting ∨
  (caller w = Done (Ok tt) ∧
   run_phase (python_runner (mgr w)) ≠ Idle ∧
   called_start (spawned w) = true).
Proof.
  apply (first_execution_handshake OnceEnded (CallStart "/programs/python3/p1.py" None)
           reconciled_state
           [CallerPolls; ThreadRuns; CallerPolls; ThreadRuns; BodyExits 0]).
  reflexivity.
Defined.

Lemma idle_step_without_thread T w e :
  run_phase (python_runner (mgr w)) = Idle →
  caller w = Waiting →
  e ≠ ThreadRuns →
  run_phase (python_runner (mgr (step T w e))) = Idle ∧
  caller (step T w e) = Waiting ∧
  spawned (step T w e) = spawned w ∧
  python_manager (mgr (step T w e)) = python_manager (mgr w).
Proof.
  intros Hidle Hw He. destruct e; simpl; try done.
  - rewrite Hw. simpl.
    unfold execution_is_running, PythonRunner.is_running, PythonRunner.exit_status.
    by rewrite Hidle.
  - unfold PythonRunner.emits. by rewrite Hidle.
  - unfold PythonRunner.exits. by rewrite Hidle.
  - unfold stop_execution, PythonRunner.stop. simpl. by rewrite Hidle.
Qed.

(** X12: if the temporary file cannot be written, [execute_from_code] on
    a runner that has never run does not return: the spawned thread ends
    with the storage failure before it calls [start], the runner stays
    idle, and the caller is still in the polling loop after every
    schedule. *)
Theorem execute_from_code_waits_forever T code tmp s schedule :
  run_phase (python_runner s) = Idle →
  writable (python_manager s) = false →
  let w := run T schedule (execute_from_code code tmp s) in
  caller w = Waiting ∧
  run_phase (python_runner (mgr w)) = Idle ∧
  (ThreadRuns ∈ schedule → spawned w = Finished (Some StorageFailure)).
Proof.
  intros Hidle Hw. unfold execute_from_code, execute, run.
  assert (∀ w0,
    run_phase (python_runner (mgr w0)) = Idle → caller w0 = Waiting →
    writable (python_manager (mgr w0)) = false →
    (spawned w0 = EnterScope code tmp ∨ spawned w0 = Finished (Some StorageFailure)) →
    caller (foldl (step T) w0 schedule) = Waiting ∧
    run_phase (python_runner (mgr (foldl (step T) w0 schedule))) = Idle ∧
    (spawned w0 = Finished (Some StorageFailure) ∨ ThreadRuns ∈ schedule →
     spawned (foldl (step T) w0 schedule) = Finished (Some StorageFailure))) as Hgen.
  { clear. induction schedule as [|e schedule IH]; intros w0 Hidle Hc Hw Hth.
    - simpl. repeat split; try done. intros [?|Hin]; [done|].
      by apply elem_of_nil in Hin.
    - simpl.
      assert (e = ThreadRuns ∨ e ≠ ThreadRuns) as [->|Hne]
        by (destruct e; [by left|by right..]).
      + assert (step T w0 ThreadRuns
                = World (mgr w0) (Finished (Some StorageFailure)) (caller w0)) as ->.
        { destruct w0 as [s0 t0 c0]. simpl in *. destruct Hth as [-> | ->]; [|done].
          simpl. unfold ProgramsFileManager.temporary_enter. by rewrite Hw. }
        destruct (IH (World (mgr w0) (Finished (Some StorageFailure)) (caller w0)))
          as (? & ? & Hfin); auto.
      + destruct (idle_step_without_thread T w0 e) as (? & ? & Hsp & Hpy); try done.
        destruct (IH (step T w0 e)) as (? & ? & Hfin); try congruence.
        repeat split; try done. intros [Hf|Hin]; apply Hfin.
        * left. congruence.
        * right. by apply elem_of_cons in Hin as [?|?]. }
  destruct (Hgen (World s (EnterScope code tmp) Waiting)) as (? & ? & Hfin); auto.
Qed.

(** X12 on [full_disk]. *)
Lemma execute_from_code_waits_forever_witness :
  let w := run OnceEnded [CallerPolls; ThreadRuns; CallerPolls; StopRequested; CallerPolls]
               (execute_from_code "print(1)" "/tmp/tmp1.py" full_disk) in
  caller w = Waiting ∧
  run_phase (python_runner (mgr w)) = Idle ∧
  (ThreadRuns ∈ [CallerPolls; ThreadRuns; CallerPolls; StopRequested; CallerPolls] →
   spawned w = Finished (Some StorageFailure)).
Proof.
  apply (execute_from_code_waits_forever OnceEnded "print(1)" "/tmp/tmp1.py" full_disk
           [CallerPolls; ThreadRuns; CallerPolls; StopRequested; CallerPolls]);
    reflexivity.
Defined.

Lemma same_programs_refl s : same_programs s s.
Proof. by repeat split. Qed.

Lemma same_programs_trans s1 s2 s3 :
  same_programs s1 s2 → same_programs s2 s3 → same_programs s1 s3.
Proof.
  intros (? & ? & ? & ? & ?) (? & ? & ? & ? & ?). repeat split; congruence.
Qed.

Lemma same_programs_step T w e : same_programs (mgr w) (mgr (step T w e)).
Proof.
  destruct e; simpl; try apply same_programs_refl; try by repeat split.
  destruct (spawned w) as [code tmp|path scope|path scope|scope|tmp raised|raised];
    simpl; try by repeat split.
  - unfold ProgramsFileManager.temporary_enter.
    destruct (negb _); simpl; by repeat split.
  - destruct (PythonRunner.start_claim _) as [r [[]|err]]; by repeat split.
  - destruct (PythonRunner.start_launch _ _) as [r [[]|err]]; by repeat split.
  - destruct (execution_is_running _); by repeat split.
Qed.

(** X13: starting, running and stopping an execution never changes the
    stored programs: along every schedule the metadata store, the script
    files, the visual store and the cache stay as they were, and [get]
    answers the same for every id. *)
Theorem executions_keep_programs T fun_ s schedule :
  let s' := mgr (run T schedule (execute fun_ s)) in
  database s' = database s ∧
  files (python_manager s') = files (python_manager s) ∧
  blockly_manager s' = blockly_manager s ∧
  programs s' = programs s ∧
  ∀ k, (get k s').2 = (get k s).2.
Proof.
  assert (same_programs s (mgr (run T schedule (execute fun_ s)))) as Hsame.
  { unfold run. change s with (mgr (execute fun_ s)) at 1.
    generalize (execute fun_ s). induction schedule as [|e schedule IH]; intros w.
    - apply same_programs_refl.
    - simpl. eapply same_programs_trans; [apply same_programs_step|apply IH]. }
  destruct Hsame as (Hd & Hb & Hc & _ & Hp). cbv zeta.
  assert (files (python_manager (mgr (run T schedule (execute fun_ s))))
          = files (python_manager s)) as Hf.
  { change (files (with_temps ∅ (python_manager (mgr (run T schedule (execute fun_ s)))))
            = files (with_temps ∅ (python_manager s))). by rewrite Hp. }
  repeat split; try done.
  intros k. apply get_ext; by rewrite ?Hd, ?Hf, ?Hb.
Qed.

(** X14: [execute_from_code] leaves no temporary file behind: if no file
    lay at the temporary path before, then along every schedule (body
    printing, exiting, being stopped, start rejected or not) the script
    store is, once the spawned thread has finished, exactly the store
    the call found. *)
Theorem temporary_file_never_left_behind T code tmp s schedule :
  temps (python_manager s) !! tmp = None →
  let w := run T schedule (execute_from_code code tmp s) in
  ∀ raised, spawned w = Finished raised → python_manager (mgr w) = python_manager s.
Proof.
  intros Hfresh w raised Hfin.
  pose proof (scoped_run T (python_manager s) code tmp schedule
                (execute_from_code code tmp s) Hfresh) as Hsc.
  unfold scoped in Hsc at 2. fold w in Hsc. rewrite Hfin in Hsc. by apply Hsc.
Qed.

(** X14 at a run that is stopped. *)
Lemma temporary_file_never_left_behind_witness :
  let w := run OnceEnded
               [ThreadRuns; ThreadRuns; ThreadRuns; StopRequested; ThreadRuns; ThreadRuns]
               (execute_from_code "print(5)" "/tmp/tmp1.py" reconciled_state) in
  python_manager (mgr w) = python_manager reconciled_state.
Proof.
  apply (temporary_file_never_left_behind OnceEnded "print(5)" "/tmp/tmp1.py"
           reconciled_state
           [ThreadRuns; ThreadRuns; ThreadRuns; StopRequested; ThreadRuns; ThreadRuns]
           eq_refl None).
  reflexivity.
Defined.
